(** * Credit-card chatbot: query synthesis, execution and presentation

    A shallow embedding of [src/query_generator.py] ([SQLQueryGenerator]) and
    [src/src/chatbot.py] ([CreditCardChatbot]).

    The Python code talks to four collaborators that live outside the
    repository: the Langchain SQL chain ([self.chain.invoke]), the custom
    prompt chain ([self.custom_chain.run]), the SQL store ([self.db.run]) and
    the response chain ([self.response_chain.run]).  Each of them may change
    the outside world and may raise.  They are taken as fields of a record of
    collaborators over an arbitrary type of worlds; every call is appended to
    a log, so that statements of the form "this path never invokes that
    service" are statements about the log.

    Around the pipeline, the file also embeds the connection object of
    [src/src/db_connection.py], the chat handler of [src/app.py] and the
    generators of [src/generate_demo_data.py]. *)

From Stdlib Require Import String Ascii List Bool Arith ZArith Lia.
From Stdlib Require Import Decimal DecimalNat DecimalString.
Import ListNotations.
Local Open Scope string_scope.

(** ** Python strings

    A [str] is carried as its UTF-8 encoding.  UTF-8 is self-synchronising, so
    for well-formed text the substring and prefix tests on the encoding agree
    with Python's tests on code points. *)

Module PyStr.

(** [needle in haystack] *)
Fixpoint contains (needle haystack : string) : bool :=
  String.prefix needle haystack ||
  match haystack with
  | EmptyString => false
  | String _ rest => contains needle rest
  end.

(** [s.startswith(p)] *)
Definition startswith (s p : string) : bool := String.prefix p s.

(** [any(kw in s for kw in kws)] *)
Definition any_in (kws : list string) (s : string) : bool :=
  existsb (fun kw => contains kw s) kws.

End PyStr.

(** ** Python values met by the pipeline *)

(** An exception instance; [exc_str e] is [str(e)].  The handlers of the
    source are [except Exception] and a bare [except]; the failures modelled
    here are instances of [Exception]. *)
Record PyExc : Type := Exception { exc_str : string }.

Inductive PyResult (A : Type) : Type :=
| Returned (a : A)
| Raised (e : PyExc).
Arguments Returned {A} a.
Arguments Raised {A} e.

(** A cell of a table.  No definition below inspects a cell. *)
Inductive Cell : Type :=
| CText (s : string)
| CNumber (z : Z)
| CNull.

(** A column label.  Pandas takes any hashable value as a label; the labels
    carried here are the strings and the integers.  An integer label, as
    any label that is not a [str], has no method [lower]. *)
Inductive Label : Type :=
| LStr (s : string)
| LInt (z : Z).

Coercion LStr : string >-> Label.

(** [a == b] on labels; a [str] never equals an [int]. *)
Definition label_eqb (a b : Label) : bool :=
  match a, b with
  | LStr s, LStr t => String.eqb s t
  | LInt x, LInt y => Z.eqb x y
  | _, _ => false
  end.

(** [pd.DataFrame]: [len(df)] is the number of rows. *)
Record DataFrame : Type := mkDataFrame
  { columns : list Label;
    rows : list (list Cell) }.

Definition df_len (df : DataFrame) : nat := List.length (rows df).

(** Elements of a list-shaped query result. *)
Inductive PyObj : Type :=
| ODict (items : list (string * Cell))
| OTuple (cells : list Cell)
| OScalar (c : Cell).

Definition is_dict (o : PyObj) : bool :=
  match o with ODict _ => true | _ => false end.

(** What [execute_query] hands to the chatbot. *)
Inductive PyValue : Type :=
| VStr (s : string)
| VList (items : list PyObj)
| VFrame (df : DataFrame)
| VOther.

(** [isinstance(v, pd.DataFrame)] *)
Definition is_frame (v : PyValue) : bool :=
  match v with VFrame _ => true | _ => false end.

(** [isinstance(v, list) and len(v) > 0] *)
Definition is_nonempty_list (v : PyValue) : bool :=
  match v with VList (_ :: _) => true | _ => false end.

(** ** Charts

    The drawing commands issued by the three plotting helpers, as data: which
    kind of chart, which column is the axis, which are the series. *)

Inductive XAxis : Type :=
| XColumn (col : Label)
| XIndex.

Inductive Figure : Type :=
| LineChart (x : XAxis) (series : list Label) (xlabel : Label)
| PieChart (labels values : nat)
| BarChartPair (labels values : nat) (xlabel ylabel : Label)
| BarChartFrame (xlabel : string).

Inductive ChartKind : Type := Line | Pie | Bar.

Definition kind_of (f : Figure) : ChartKind :=
  match f with
  | LineChart _ _ _ => Line
  | PieChart _ _ => Pie
  | BarChartPair _ _ _ _ => Bar
  | BarChartFrame _ => Bar
  end.

(** The dictionary returned by [process_question]. *)
Record Response : Type := mkResponse
  { answer : string;
    sql_query : string;
    visualization : option string }.

(** ** The outside world *)

Inductive Call : Type :=
| CallChainInvoke (question : string)
| CallCustomChainRun (question table_schema : string)
| CallDbRun (query : string)
| CallResponseChainRun (question sql_query query_result : string).

Definition is_generic_translation (c : Call) : bool :=
  match c with CallChainInvoke _ => true | _ => false end.

Definition is_narrative_generation (c : Call) : bool :=
  match c with CallResponseChainRun _ _ _ => true | _ => false end.

Definition is_store_access (c : Call) : bool :=
  match c with CallDbRun _ => true | _ => false end.

(** The collaborators.  The first four are the remote services; the others
    are library routines whose behaviour the source relies on but does not
    define: [str.lower], [str] of a query result, the [pd.DataFrame]
    constructor, and Matplotlib's rendering of a figure over a frame
    followed by [_fig_to_base64]. *)
Record Collaborators (World : Type) : Type := mkCollaborators
  { chain_invoke : string -> World -> PyResult string * World;
    custom_chain_run : string -> string -> World -> PyResult string * World;
    db_run : string -> World -> PyResult PyValue * World;
    response_chain_run :
      string -> string -> string -> World -> PyResult string * World;
    str_lower : string -> string;
    py_str : PyValue -> string;
    pd_DataFrame : list PyObj -> option (list string) -> PyResult DataFrame;
    fig_to_base64 : DataFrame -> Figure -> PyResult string }.
Arguments chain_invoke {World} _ _ _.
Arguments custom_chain_run {World} _ _ _ _.
Arguments db_run {World} _ _ _.
Arguments response_chain_run {World} _ _ _ _ _.
Arguments str_lower {World} _ _.
Arguments py_str {World} _ _.
Arguments pd_DataFrame {World} _ _ _.
Arguments fig_to_base64 {World} _ _ _.

(** ** Computations: a world, a call log, and exceptions *)

Record St (World : Type) : Type := mkSt
  { world : World;
    calls : list Call }.
Arguments mkSt {World} _ _.
Arguments world {World} _.
Arguments calls {World} _.

Definition Py (World A : Type) : Type := St World -> PyResult A * St World.

Definition ret {World A : Type} (a : A) : Py World A :=
  fun st => (Returned a, st).

Definition bind {World A B : Type} (m : Py World A) (k : A -> Py World B)
  : Py World B :=
  fun st =>
    match m st with
    | (Returned a, st') => k a st'
    | (Raised e, st') => (Raised e, st')
    end.

(** [try: m  except Exception as e: h e] *)
Definition try_except {World A : Type} (m : Py World A)
  (h : PyExc -> Py World A) : Py World A :=
  fun st =>
    match m st with
    | (Returned a, st') => (Returned a, st')
    | (Raised e, st') => h e st'
    end.

(** A computation without effects that may raise. *)
Definition lift {World A : Type} (r : PyResult A) : Py World A :=
  fun st => (r, st).

(** A call of a remote service: logged, then performed on the world. *)
Definition remote {World A : Type} (c : Call)
  (f : World -> PyResult A * World) : Py World A :=
  fun st =>
    let (r, w) := f (world st) in
    (r, mkSt w (calls st ++ [c])).

Declare Scope py_scope.
Delimit Scope py_scope with py.
Notation "x <- m ;; k" := (bind m (fun x => k))
  (at level 100, m at next level, right associativity) : py_scope.
Notation "'try' m 'except' e => h" := (try_except m (fun e => h))
  (at level 100, m at next level, e name, right associativity) : py_scope.
Local Open Scope py_scope.

(** ** [SQLQueryGenerator] *)

(** [self.table_schema] *)
Definition table_schema : string :=
"
        Table users {
            user_id INTEGER [pk]
            name TEXT [not null]
            email TEXT [unique]
            registration_date TEXT [not null]
            is_active INTEGER [default: 1]
            is_dormant INTEGER [default: 0]
            is_cancelled INTEGER [default: 0]
            last_activity_date TEXT
        }

        Table categories {
            category_id INTEGER [pk]
            category_name TEXT [not null, unique]
        }

        Table purchases {
            purchase_id INTEGER [pk]
            user_id INTEGER [ref: > users.user_id, not null]
            amount REAL [not null]
            purchase_date TEXT [not null]
            category_id INTEGER [ref: > categories.category_id, not null]
        }

        Note:
        - is_active: 1 for active, 0 for inactive (do not use this flag to determine if a user is active)
        - is_dormant: 1 for dormant, 0 for not dormant (do not use this flag to determine if a user is dormant)
        - is_cancelled: 1 for cancelled, 0 for not cancelled
        - Active users: Users who have made at least one purchase in the specified time period and are not cancelled
        - Dormant users: Users who have not made any purchases in the specified time period (e.g., 90 days) and are not cancelled
        - Cancelled users: is_cancelled=1
        - purchase_date and registration_date format: 'YYYY-MM-DD'
        ".

Section Pipeline.

Context {World : Type} (C : Collaborators World).

Definition run_chain_invoke (question : string) : Py World string :=
  remote (CallChainInvoke question) (chain_invoke C question).

Definition run_custom_chain (question schema : string) : Py World string :=
  remote (CallCustomChainRun question schema)
    (custom_chain_run C question schema).

Definition run_db (query : string) : Py World PyValue :=
  remote (CallDbRun query) (db_run C query).

Definition run_response_chain (question sql_query query_result : string)
  : Py World string :=
  remote (CallResponseChainRun question sql_query query_result)
    (response_chain_run C question sql_query query_result).

(** The test that opens [generate_query]:
    ["アクティブ" in question or "active" in question.lower()]. *)
Definition mentions_active (question : string) : bool :=
  PyStr.contains "アクティブ" question
  || PyStr.contains "active" (str_lower C question).

(** [SQLQueryGenerator.generate_query] *)
Definition generate_query (question : string) : Py World string :=
  if mentions_active question then
    run_custom_chain question table_schema
  else
    try run_chain_invoke question
    except e => run_custom_chain question table_schema.

(** [SQLQueryGenerator.execute_query] *)
Definition execute_query (query : string) : Py World PyValue :=
  try run_db query
  except e => ret (VStr ("Error executing query: " ++ exc_str e)).

(** ** [CreditCardChatbot] *)

(** [str(v)]: a [str] is its own rendering; other values go through the
    interpreter. *)
Definition str_of (v : PyValue) : string :=
  match v with
  | VStr s => s
  | _ => py_str C v
  end.

(** [CreditCardChatbot._create_bar_chart] *)
Definition _create_bar_chart (df : DataFrame) : PyResult string :=
  if (List.length (columns df) =? 2)%nat then
    fig_to_base64 C df
      (BarChartPair 0 1 (nth 0 (columns df) "") (nth 1 (columns df) ""))
  else
    fig_to_base64 C df (BarChartFrame "カテゴリ").

(** [CreditCardChatbot._create_comparison_plot] *)
Definition _create_comparison_plot (df : DataFrame) : PyResult string :=
  if (List.length (columns df) =? 2)%nat then
    fig_to_base64 C df (PieChart 0 1)
  else
    _create_bar_chart df.

Definition date_keywords : list string :=
  ["date"; "time"; "月"; "日"; "年"].

(** [[col for col in cols if any(kw in col.lower() for kw in ...)]]:
    the labels are visited in order and [col.lower()] is called on each
    one, which raises [AttributeError] on a label that is not a [str]. *)
Fixpoint date_columns (cols : list Label) : PyResult (list Label) :=
  match cols with
  | [] => Returned []
  | LInt _ :: _ =>
      Raised (Exception "'int' object has no attribute 'lower'")
  | LStr name :: rest =>
      match date_columns rest with
      | Returned found =>
          Returned
            (if PyStr.any_in date_keywords (str_lower C name)
             then LStr name :: found
             else found)
      | Raised e => Raised e
      end
  end.

(** [CreditCardChatbot._create_time_series_plot] *)
Definition _create_time_series_plot (df : DataFrame) : PyResult string :=
  match date_columns (columns df) with
  | Raised e => Raised e
  | Returned (date_col :: _) =>
      let value_cols :=
        filter (fun col => negb (label_eqb col date_col)) (columns df) in
      fig_to_base64 C df (LineChart (XColumn date_col) value_cols date_col)
  | Returned [] =>
      fig_to_base64 C df (LineChart XIndex (columns df) "インデックス")
  end.

(** The conversion that opens [_generate_visualization]; [None] stands for
    its two early [return None]. *)
Definition frame_of (query_result : PyValue) : option DataFrame :=
  match query_result with
  | VFrame df => Some df
  | VList (first :: rest) =>
      let made :=
        if is_dict first then pd_DataFrame C (first :: rest) None
        else pd_DataFrame C (first :: rest) (Some ["Value"]) in
      match made with
      | Returned df => Some df
      | Raised _ => None
      end
  | _ => None
  end.

Definition time_series_question (question : string) : bool :=
  PyStr.contains "推移" question
  || PyStr.contains "トレンド" question
  || PyStr.contains "変化" question.

Definition comparison_question (question : string) : bool :=
  PyStr.contains "比較" question
  || PyStr.contains "割合" question
  || PyStr.contains "分布" question.

Definition some_of {A : Type} (r : PyResult A) : PyResult (option A) :=
  match r with
  | Returned a => Returned (Some a)
  | Raised e => Raised e
  end.

(** [CreditCardChatbot._generate_visualization] *)
Definition _generate_visualization (question : string)
  (query_result : PyValue) : PyResult (option string) :=
  match frame_of query_result with
  | None => Returned None
  | Some df =>
      if ((df_len df <=? 1) && (List.length (columns df) <=? 1))%nat then
        Returned None
      else if time_series_question question then
        some_of (_create_time_series_plot df)
      else if comparison_question question then
        some_of (_create_comparison_plot df)
      else if ((1 <? df_len df) && (2 <=? List.length (columns df)))%nat then
        some_of (_create_bar_chart df)
      else
        Returned None
  end.

(** [isinstance(query_result, str) and query_result.startswith("Error")] *)
Definition is_error_result (query_result : PyValue) : bool :=
  match query_result with
  | VStr s => PyStr.startswith s "Error"
  | _ => false
  end.

Definition apology : string :=
  "申し訳ありません。クエリの実行中にエラーが発生しました: ".

(** The dictionary built by the error branch of [process_question]. *)
Definition error_reply (sql : string) (query_result : PyValue) : Response :=
  {| answer := apology ++ str_of query_result;
     sql_query := sql;
     visualization := None |}.

(** [CreditCardChatbot.process_question] *)
Definition process_question (question : string) : Py World Response :=
  sql_query <- generate_query question ;;
  query_result <- execute_query sql_query ;;
  if is_error_result query_result then
    ret {| answer := apology ++ str_of query_result;
           sql_query := sql_query;
           visualization := None |}
  else
    visualization <- lift (_generate_visualization question query_result) ;;
    response <-
      run_response_chain question sql_query (str_of query_result) ;;
    ret {| answer := response;
           sql_query := sql_query;
           visualization := visualization |}.

End Pipeline.

Arguments mentions_active {World} C question.
Arguments generate_query {World} C question _.
Arguments execute_query {World} C query _.
Arguments process_question {World} C question _.
Arguments frame_of {World} C query_result.
Arguments _generate_visualization {World} C question query_result.
Arguments _create_time_series_plot {World} C df.
Arguments _create_comparison_plot {World} C df.
Arguments _create_bar_chart {World} C df.
Arguments str_of {World} C v.
Arguments error_reply {World} C sql query_result.

(** ** A concrete set of collaborators

    A small in-memory world on which the pipeline can be run: a purchases
    table, and three switches telling which remote language service is up.
    The translation chain answers with the text it is given, the prompt
    chain answers with one fixed query, and the store understands four
    statements. *)

Module Demo.

Record World : Type := mkWorld
  { purchases : list Z;
    translator_up : bool;
    prompt_chain_up : bool;
    narrator_up : bool }.

Definition lower_ascii (c : ascii) : ascii :=
  let n := nat_of_ascii c in
  if ((65 <=? n) && (n <=? 90))%nat then ascii_of_nat (n + 32) else c.

Fixpoint lower (s : string) : string :=
  match s with
  | EmptyString => EmptyString
  | String c rest => String (lower_ascii c) (lower rest)
  end.

Definition unavailable (service : string) : PyExc :=
  Exception (service ++ " unavailable").

Definition translate (question : string) (w : World)
  : PyResult string * World :=
  if translator_up w then (Returned question, w)
  else (Raised (unavailable "translation service"), w).

Definition monthly_active_query : string :=
  "SELECT COUNT(DISTINCT p.user_id) FROM purchases p".

Definition prompt_chain (question schema : string) (w : World)
  : PyResult string * World :=
  if prompt_chain_up w then (Returned monthly_active_query, w)
  else (Raised (unavailable "prompt chain"), w).

Definition by_category : DataFrame :=
  {| columns := [LStr "category_name"; LStr "total"];
     rows := [[CText "美容"; CNumber 1200]; [CText "旅行"; CNumber 5400]] |}.

Definition store (query : string) (w : World) : PyResult PyValue * World :=
  if String.eqb query "DELETE FROM purchases" then
    (Returned (VStr ""),
     {| purchases := [];
        translator_up := translator_up w;
        prompt_chain_up := prompt_chain_up w;
        narrator_up := narrator_up w |})
  else if String.eqb query "SELECT COUNT(*) FROM purchases" then
    (Returned
       (VList [OTuple [CNumber (Z.of_nat (List.length (purchases w)))]]), w)
  else if String.eqb query monthly_active_query then
    (Returned (VFrame by_category), w)
  else if String.eqb query "SELECT 'Error budget'" then
    (Returned (VStr "Error budget"), w)
  else
    (Raised (Exception "near syntax error"), w).

Definition narrate (question sql_query query_result : string) (w : World)
  : PyResult string * World :=
  if narrator_up w then (Returned ("結果: " ++ query_result), w)
  else (Raised (unavailable "narrative service"), w).

Definition row_of (o : PyObj) : list Cell :=
  match o with
  | ODict items => map snd items
  | OTuple cells => cells
  | OScalar c => [c]
  end.

Definition make_frame (items : list PyObj) (cols : option (list string))
  : PyResult DataFrame :=
  match cols with
  | Some names =>
      if forallb
           (fun o => (List.length (row_of o) =? List.length names)%nat)
           items
      then Returned {| columns := map LStr names; rows := map row_of items |}
      else Raised (Exception "Shape of passed values does not match")
  | None =>
      match items with
      | ODict first :: _ =>
          if forallb is_dict items
          then Returned {| columns := map LStr (map fst first);
                           rows := map row_of items |}
          else Raised (Exception "mixed rows")
      | _ => Raised (Exception "no columns")
      end
  end.

Definition render (df : DataFrame) (fig : Figure) : PyResult string :=
  Returned
    match fig with
    | LineChart (XColumn (LStr col)) _ _ => "line over " ++ col
    | LineChart (XColumn (LInt _)) _ _ => "line over a numbered column"
    | LineChart XIndex _ _ => "line over index"
    | PieChart _ _ => "pie"
    | BarChartPair _ _ _ _ => "bar of two columns"
    | BarChartFrame _ => "bar of all columns"
    end.

Definition describe (v : PyValue) : string :=
  match v with
  | VStr s => s
  | VList _ => "[...]"
  | VFrame _ => "<DataFrame>"
  | VOther => "None"
  end.

Definition services : Collaborators World :=
  {| chain_invoke := translate;
     custom_chain_run := prompt_chain;
     db_run := store;
     response_chain_run := narrate;
     str_lower := lower;
     py_str := describe;
     pd_DataFrame := make_frame;
     fig_to_base64 := render |}.

(** Everything is up and the table holds three purchases. *)
Definition healthy : St World :=
  mkSt {| purchases := [1200; 300; 5400]%Z;
          translator_up := true;
          prompt_chain_up := true;
          narrator_up := true |} [].

(** Neither translation service answers. *)
Definition no_language_service : St World :=
  mkSt {| purchases := [1200; 300; 5400]%Z;
          translator_up := false;
          prompt_chain_up := false;
          narrator_up := true |} [].


(** Only the generic translation chain is down. *)
Definition no_translator : St World :=
  mkSt {| purchases := [1200; 300; 5400]%Z;
          translator_up := false;
          prompt_chain_up := true;
          narrator_up := true |} [].

End Demo.

(** A variant of the concrete collaborators whose store answers the
    selection of one quoted text with that text. *)

Module Quoting.

Definition store (query : string) (w : Demo.World)
  : PyResult PyValue * Demo.World :=
  if String.eqb query "SELECT 'Error executing query: near syntax error'"
  then (Returned (VStr "Error executing query: near syntax error"), w)
  else Demo.store query w.

Definition services : Collaborators Demo.World :=
  {| chain_invoke := Demo.translate;
     custom_chain_run := Demo.prompt_chain;
     db_run := store;
     response_chain_run := Demo.narrate;
     str_lower := Demo.lower;
     py_str := Demo.describe;
     pd_DataFrame := Demo.make_frame;
     fig_to_base64 := Demo.render |}.

End Quoting.

(** A variant of the concrete collaborators whose renderer cannot draw a pie
    chart, as Matplotlib cannot when a wedge size is negative. *)

Module Faulty.

Definition render (df : DataFrame) (fig : Figure) : PyResult string :=
  match fig with
  | PieChart _ _ => Raised (Exception "Wedge sizes 'x' must be non negative values")
  | _ => Demo.render df fig
  end.

Definition services : Collaborators Demo.World :=
  {| chain_invoke := Demo.translate;
     custom_chain_run := Demo.prompt_chain;
     db_run := Demo.store;
     response_chain_run := Demo.narrate;
     str_lower := Demo.lower;
     py_str := Demo.describe;
     pd_DataFrame := Demo.make_frame;
     fig_to_base64 := render |}.

(** Monthly figures: a date-like column between two value columns. *)
Definition monthly : DataFrame :=
  {| columns := [LStr "users"; LStr "Month_Date"; LStr "amount"];
     rows := [[CNumber 10; CText "2024-01"; CNumber 900];
              [CNumber 12; CText "2024-02"; CNumber 1100]] |}.


End Faulty.

(** ** [src/src/db_connection.py]

    [create_engine] and [str.lower] are library routines; an engine is any
    value of a type [Engine].  [sessionmaker(bind=engine)] and the session it
    makes are carried as the engine they are bound to. *)

Module DbConnection.

(** [os.environ], as [load_dotenv()] leaves it. *)
Definition Environ : Type := string -> option string.

(** [os.getenv(key, default)] *)
Definition getenv_or (env : Environ) (key default : string) : string :=
  match env key with
  | Some v => v
  | None => default
  end.

(** [a or b], for an argument [a] that is [None] or a string: [None] and the
    empty string are falsy. *)
Definition or_str (a : option string) (b : string) : string :=
  match a with
  | Some (String c s) => String c s
  | _ => b
  end.

Definition or_opt (a b : option string) : option string :=
  match a with
  | Some (String c s) => Some (String c s)
  | _ => b
  end.

(** An optional string inside an f-string. *)
Definition fmt (x : option string) : string :=
  match x with
  | Some s => s
  | None => "None"
  end.

Inductive SessionMaker (Engine : Type) : Type :=
| sessionmaker (bind : Engine).
Arguments sessionmaker {Engine} bind.

Inductive SessionObject (Engine : Type) : Type :=
| session_of (bind : Engine).
Arguments session_of {Engine} bind.

Record DatabaseConnection (Engine : Type) : Type := mkDatabaseConnection
  { db_type : string;
    db_path : string;
    db_host : option string;
    db_port : option string;
    db_name : option string;
    db_user : option string;
    db_password : option string;
    engine : option Engine;
    Session : option (SessionMaker Engine) }.
Arguments mkDatabaseConnection {Engine} _ _ _ _ _ _ _ _ _.
Arguments db_type {Engine} _.
Arguments db_path {Engine} _.
Arguments db_host {Engine} _.
Arguments db_port {Engine} _.
Arguments db_name {Engine} _.
Arguments db_user {Engine} _.
Arguments db_password {Engine} _.
Arguments engine {Engine} _.
Arguments Session {Engine} _.

Section Connection.

Context {Engine : Type}.
Variable create_engine : string -> PyResult Engine.
Variable lower : string -> string.
Variable env : Environ.

(** [DatabaseConnection.__init__] *)
Definition init (type : string)
  (path host port name user password : option string)
  : DatabaseConnection Engine :=
  {| db_type := type;
     db_path := or_str path (getenv_or env "DB_PATH" "db/data/credit_card_users.db");
     db_host := or_opt host (env "DB_HOST");
     db_port := or_opt port (env "DB_PORT");
     db_name := or_opt name (env "DB_NAME");
     db_user := or_opt user (env "DB_USER");
     db_password := or_opt password (env "DB_PASSWORD");
     engine := None;
     Session := None |}.

(** The two assignments that end a successful [connect]. *)
Definition connected (self : DatabaseConnection Engine) (e : Engine)
  : DatabaseConnection Engine :=
  {| db_type := db_type self;
     db_path := db_path self;
     db_host := db_host self;
     db_port := db_port self;
     db_name := db_name self;
     db_user := db_user self;
     db_password := db_password self;
     engine := Some e;
     Session := Some (sessionmaker e) |}.

Definition connect_to (self : DatabaseConnection Engine)
  (connection_string : string)
  : PyResult Engine * DatabaseConnection Engine :=
  match create_engine connection_string with
  | Returned e => (Returned e, connected self e)
  | Raised x => (Raised x, self)
  end.

(** [DatabaseConnection.connect] *)
Definition connect (self : DatabaseConnection Engine)
  : PyResult Engine * DatabaseConnection Engine :=
  if String.eqb (lower (db_type self)) "sqlite" then
    connect_to self ("sqlite:///" ++ db_path self)
  else if String.eqb (lower (db_type self)) "mysql" then
    connect_to self
      ("mysql+pymysql://" ++ fmt (db_user self) ++ ":"
       ++ fmt (db_password self) ++ "@" ++ fmt (db_host self) ++ ":"
       ++ fmt (db_port self) ++ "/" ++ fmt (db_name self))
  else if String.eqb (lower (db_type self)) "postgresql" then
    connect_to self
      ("postgresql://" ++ fmt (db_user self) ++ ":"
       ++ fmt (db_password self) ++ "@" ++ fmt (db_host self) ++ ":"
       ++ fmt (db_port self) ++ "/" ++ fmt (db_name self))
  else
    (Raised (Exception ("Unsupported database type: " ++ db_type self)), self).

(** The three types that [connect] knows, compared as it compares them. *)
Definition supported (type : string) : bool :=
  String.eqb (lower type) "sqlite"
  || String.eqb (lower type) "mysql"
  || String.eqb (lower type) "postgresql".

(** [DatabaseConnection.get_session]; calling a [Session] attribute that is
    still [None] would be a [TypeError]. *)
Definition get_session (self : DatabaseConnection Engine)
  : PyResult (SessionObject Engine) * DatabaseConnection Engine :=
  match Session self with
  | Some (sessionmaker e) => (Returned (session_of e), self)
  | None =>
      match connect self with
      | (Returned _, self') =>
          match Session self' with
          | Some (sessionmaker e) => (Returned (session_of e), self')
          | None =>
              (Raised (Exception "'NoneType' object is not callable"), self')
          end
      | (Raised x, self') => (Raised x, self')
      end
  end.

(** [connect] and [get_session] once more, keeping a record of the
    connection strings handed to [create_engine]: one entry for each engine
    that is asked for. *)
Definition connect_to_recorded (self : DatabaseConnection Engine)
  (connection_string : string) (made : list string)
  : (PyResult Engine * DatabaseConnection Engine) * list string :=
  match create_engine connection_string with
  | Returned e =>
      ((Returned e, connected self e), (made ++ [connection_string])%list)
  | Raised x => ((Raised x, self), (made ++ [connection_string])%list)
  end.

Definition connect_recorded (self : DatabaseConnection Engine)
  (made : list string)
  : (PyResult Engine * DatabaseConnection Engine) * list string :=
  if String.eqb (lower (db_type self)) "sqlite" then
    connect_to_recorded self ("sqlite:///" ++ db_path self) made
  else if String.eqb (lower (db_type self)) "mysql" then
    connect_to_recorded self
      ("mysql+pymysql://" ++ fmt (db_user self) ++ ":"
       ++ fmt (db_password self) ++ "@" ++ fmt (db_host self) ++ ":"
       ++ fmt (db_port self) ++ "/" ++ fmt (db_name self)) made
  else if String.eqb (lower (db_type self)) "postgresql" then
    connect_to_recorded self
      ("postgresql://" ++ fmt (db_user self) ++ ":"
       ++ fmt (db_password self) ++ "@" ++ fmt (db_host self) ++ ":"
       ++ fmt (db_port self) ++ "/" ++ fmt (db_name self)) made
  else
    ((Raised (Exception ("Unsupported database type: " ++ db_type self)),
      self), made).

Definition get_session_recorded (self : DatabaseConnection Engine)
  (made : list string)
  : (PyResult (SessionObject Engine) * DatabaseConnection Engine)
    * list string :=
  match Session self with
  | Some (sessionmaker e) => ((Returned (session_of e), self), made)
  | None =>
      match connect_recorded self made with
      | ((Returned _, self'), made') =>
          match Session self' with
          | Some (sessionmaker e) => ((Returned (session_of e), self'), made')
          | None =>
              ((Raised (Exception "'NoneType' object is not callable"),
                self'), made')
          end
      | ((Raised x, self'), made') => ((Raised x, self'), made')
      end
  end.

(** [get_db_connection] *)
Definition get_db_connection
  (type path host port name user password : option string)
  : DatabaseConnection Engine :=
  init (or_str type (getenv_or env "DB_TYPE" "sqlite"))
    path host port name user password.

(** The first two steps of [SQLQueryGenerator.__init__]: take the connection
    given or the default one, and connect it. *)
Definition generator_engine (db_connection : option (DatabaseConnection Engine))
  : PyResult Engine * DatabaseConnection Engine :=
  let db_connection :=
    match db_connection with
    | None => get_db_connection None None None None None None None
    | Some c => c
    end in
  connect db_connection.

End Connection.

(** A concrete engine factory: an engine is its URL, and a URL whose port is
    the text [None] is refused. *)
Definition url_engine (url : string) : PyResult string :=
  if PyStr.contains ":None/" url
  then Raised (Exception "invalid literal for int() with base 10: 'None'")
  else Returned url.

Definition empty_environ : Environ := fun _ => None.

Definition oracle_connection : DatabaseConnection string :=
  init empty_environ "Oracle" None None None None None None.

Definition sqlite_at (path : string) : DatabaseConnection string :=
  init empty_environ "SQLite" (Some path) None None None None None.

End DbConnection.

(** ** [src/app.py]

    The Chainlit transport is carried as the list of messages sent so far;
    [chatbot] is the pipeline over the collaborators. *)

Module App.

(** [cl.Image] *)
Record Image : Type := mkImage
  { image_name : string;
    image_content : string;
    display : string }.

(** [cl.Message] *)
Record Message : Type := mkMessage
  { content : string;
    elements : list Image }.

Record Session (World : Type) : Type := mkSession
  { core : St World;
    sent : list Message }.
Arguments mkSession {World} _ _.
Arguments core {World} _.
Arguments sent {World} _.

Definition newline : string := String (ascii_of_nat 10) EmptyString.

(** Truth value of a string. *)
Definition truthy (s : string) : bool := negb (String.eqb s "").

Definition thinking : Message :=
  {| content := "考え中..."; elements := [] |}.

(** The code block appended to the answer. *)
Definition sql_block (sql : string) : string :=
  newline ++ newline ++ "```sql" ++ newline ++ sql ++ newline ++ "```".

Section Handler.

Context {World : Type} (C : Collaborators World).

(** [on_message] *)
Definition on_message (message_content : string) (a : Session World)
  : PyResult unit * Session World :=
  let outbox := (sent a ++ [thinking])%list in
  match process_question C message_content (core a) with
  | (Raised e, st) => (Raised e, mkSession st outbox)
  | (Returned response, st) =>
      let text := answer response in
      let text :=
        if truthy (sql_query response)
        then text ++ sql_block (sql_query response)
        else text in
      let attached :=
        match visualization response with
        | Some image =>
            if truthy image
            then [ {| image_name := "Data Visualization";
                      image_content := image;
                      display := "inline" |} ]
            else []
        | None => []
        end in
      (Returned tt,
       mkSession st
         (outbox ++ [ {| content := text; elements := attached |} ])%list)
  end.

End Handler.

End App.

(** ** [src/generate_demo_data.py]

    A [datetime] is a number of microseconds, so that [timedelta(days=d)] is
    [d * day] and the [days] of a difference is its floor quotient by [day].
    The module [random] is carried as a generator state threaded through
    four draws; [random.random() < p] is the draw [random_below] with [p] in
    per cent. *)

Module DemoData.

Definition day : Z := 86400000000.

Definition first_names : list string :=
  ["太郎"; "次郎"; "花子"; "裕子"; "健太"; "直樹"; "美咲"; "真理"; "和也"; "拓也";
   "恵子"; "幸子"; "大輔"; "翔太"; "愛"; "優子"; "健"; "陽子"; "誠"; "裕美"].

Definition last_names : list string :=
  ["佐藤"; "鈴木"; "高橋"; "田中"; "伊藤"; "渡辺"; "山本"; "中村"; "小林"; "加藤";
   "吉田"; "山田"; "佐々木"; "山口"; "松本"; "井上"; "木村"; "林"; "斎藤"; "清水"].

Definition email_domains : list string :=
  ["gmail.com"; "yahoo.co.jp"; "outlook.jp"; "docomo.ne.jp"; "ezweb.ne.jp";
   "softbank.ne.jp"; "icloud.com"; "hotmail.com"; "example.com"; "mail.com"].

(** [str(i)] for a user number. *)
Definition str_of_nat (i : nat) : string :=
  NilEmpty.string_of_uint (Nat.to_uint i).

Definition is_digit (c : ascii) : bool :=
  ((48 <=? nat_of_ascii c) && (nat_of_ascii c <=? 57))%nat.

Fixpoint all_chars (p : ascii -> bool) (s : string) : bool :=
  match s with
  | EmptyString => true
  | String c rest => p c && all_chars p rest
  end.

(** The three status flags and the last activity of a generated user. *)
Record Status : Type := mkStatus
  { is_active : Z;
    is_dormant : Z;
    is_cancelled : Z;
    last_activity : Z }.

(** [l[i:j]] for [i <= j] *)
Definition slice {A : Type} (l : list A) (i j : nat) : list A :=
  firstn (j - i) (skipn i l).

Fixpoint range_from (start step count : nat) : list nat :=
  match count with
  | O => []
  | S count' => start :: range_from (start + step) step count'
  end.

(** [range(0, stop, step)] for a positive [step] *)
Definition range_step (stop step : nat) : list nat :=
  range_from 0 step ((stop + step - 1) / step).

(** The batches of the two insertion loops:
    [for i in range(0, len(l), batch_size): batch = l[i:i+batch_size]]. *)
Definition batches {A : Type} (batch_size : nat) (l : list A)
  : list (list A) :=
  map (fun i => slice l i (i + batch_size))
    (range_step (List.length l) batch_size).

Section Script.

Context {Rng : Type}.
Variable randrange : Z -> Rng -> Z * Rng.
Variable randint : Z -> Z -> Rng -> Z * Rng.
Variable random_below : Z -> Rng -> bool * Rng.
Variable choice : list string -> Rng -> string * Rng.
Variable lower : string -> string.

(** What the script relies on from [random.randrange], [random.randint]
    and [random.choice]. *)
Definition randrange_in_range : Prop :=
  forall n g, (0 < n)%Z -> (0 <= fst (randrange n g) < n)%Z.

Definition randint_in_range : Prop :=
  forall a b g, (a <= b)%Z -> (a <= fst (randint a b g) <= b)%Z.

Definition choice_in_list : Prop :=
  forall l g, l <> [] -> In (fst (choice l g)) l.

(** Lower-casing leaves no decimal digit in any of the forty names. *)
Definition names_lower_without_digits : Prop :=
  forall n, In n (first_names ++ last_names)%list ->
            all_chars (fun c => negb (is_digit c)) (lower n) = true.

(** [random_date] *)
Definition random_date (start_date end_date : Z) (g : Rng) : Z * Rng :=
  let days_between_dates := ((end_date - start_date) / day)%Z in
  if (days_between_dates <=? 0)%Z then (start_date, g)
  else
    let (random_number_of_days, g') := randrange days_between_dates g in
    ((start_date + random_number_of_days * day)%Z, g').

(** [random_amount] *)
Definition random_amount (g : Rng) : Z * Rng :=
  let (base, g1) := randint 1 500 g in
  let (larger, g2) := random_below 10 g1 in
  if larger then
    let (factor, g3) := randint 5 10 g2 in
    ((base * factor * 100)%Z, g3)
  else
    ((base * 100)%Z, g2).

(** The status of a user, lines 75 to 90 of the script. *)
Definition user_status (END_DATE reg_date : Z) (g : Rng) : Status * Rng :=
  let (cancelled, g1) := random_below 5 g in
  if cancelled then
    let (last, g2) := random_date reg_date END_DATE g1 in
    ({| is_active := 0; is_dormant := 0; is_cancelled := 1;
        last_activity := last |}, g2)
  else
    let (dormant, g2) := random_below 15 g1 in
    if dormant then
      let (last, g3) := random_date reg_date (END_DATE - 90 * day)%Z g2 in
      ({| is_active := 1; is_dormant := 1; is_cancelled := 0;
          last_activity := last |}, g3)
    else
      let (last, g3) :=
        random_date (Z.max reg_date (END_DATE - 30 * day)%Z) END_DATE g2 in
      ({| is_active := 1; is_dormant := 0; is_cancelled := 0;
          last_activity := last |}, g3).

(** The name and the e-mail address of user [i], lines 65 to 70. *)
Definition user_identity (i : nat) (g : Rng) : (string * string) * Rng :=
  let (first_name, g1) := choice first_names g in
  let (last_name, g2) := choice last_names g1 in
  let name := last_name ++ " " ++ first_name in
  let (domain, g3) := choice email_domains g2 in
  let email :=
    lower last_name ++ "." ++ lower first_name ++ str_of_nat i
    ++ "@" ++ domain in
  ((name, email), g3).

End Script.

(** A generator that reads its draws from a tape. *)
Definition Tape : Type := list Z.

Definition tape_randrange (n : Z) (g : Tape) : Z * Tape :=
  match g with
  | x :: g' => ((x mod n)%Z, g')
  | [] => (0%Z, [])
  end.

Definition tape_randint (a b : Z) (g : Tape) : Z * Tape :=
  match g with
  | x :: g' => ((a + x mod (b - a + 1))%Z, g')
  | [] => (a, [])
  end.

Definition tape_random_below (p : Z) (g : Tape) : bool * Tape :=
  match g with
  | x :: g' => ((x mod 100 <? p)%Z, g')
  | [] => (false, [])
  end.

Definition tape_choice (l : list string) (g : Tape) : string * Tape :=
  match g with
  | x :: g' => (nth (Z.to_nat (x mod Z.of_nat (List.length l))) l "", g')
  | [] => (nth 0 l "", [])
  end.

End DemoData.

Arguments table_schema : simpl never.
Arguments apology : simpl never.

(** * Properties *)

(** ** The call log *)

Section Log.

Context {World : Type}.

Lemma remote_eq {A : Type} (c : Call) (f : World -> PyResult A * World)
  (st : St World) :
  remote c f st
  = (fst (f (world st)), mkSt (snd (f (world st))) (calls st ++ [c])).
Proof.
  unfold remote. destruct (f (world st)) as [r w]. reflexivity.
Qed.

Lemma remote_returned {A : Type} (c : Call)
  (f : World -> PyResult A * World) (st : St World) (a : A) (w : World) :
  f (world st) = (Returned a, w) ->
  remote c f st = (Returned a, mkSt w (calls st ++ [c])).
Proof.
  intros H. rewrite remote_eq, H. reflexivity.
Qed.

Lemma remote_raised {A : Type} (c : Call)
  (f : World -> PyResult A * World) (st : St World) (e : PyExc) (w : World) :
  f (world st) = (Raised e, w) ->
  remote c f st = (Raised e, mkSt w (calls st ++ [c])).
Proof.
  intros H. rewrite remote_eq, H. reflexivity.
Qed.

Lemma remote_inv {A : Type} (c : Call) (f : World -> PyResult A * World)
  (st st' : St World) (r : PyResult A) :
  remote c f st = (r, st') ->
  f (world st) = (r, world st') /\ calls st' = (calls st ++ [c])%list.
Proof.
  rewrite remote_eq. intros H. inversion H; subst; clear H. simpl.
  split; [ apply surjective_pairing | reflexivity ].
Qed.

Lemma startswith_append (p s : string) : PyStr.startswith (p ++ s) p = true.
Proof.
  unfold PyStr.startswith. induction p as [ | c p IH]; simpl.
  - destruct s; reflexivity.
  - destruct (ascii_dec c c) as [_ | Hc]; [ exact IH | contradiction ].
Qed.

End Log.

(** ** Query synthesis and execution *)

Section Generator.

Context {World : Type} (C : Collaborators World).

(** The three shapes of a run of [generate_query]. *)
Lemma generate_query_active (question : string) (st : St World) :
  mentions_active C question = true ->
  generate_query C question st
  = run_custom_chain C question table_schema st.
Proof.
  intros H. unfold generate_query. rewrite H. reflexivity.
Qed.

Lemma generate_query_generic (question : string) (st : St World)
  (query : string) (w : World) :
  mentions_active C question = false ->
  chain_invoke C question (world st) = (Returned query, w) ->
  generate_query C question st
  = (Returned query, mkSt w (calls st ++ [CallChainInvoke question])).
Proof.
  intros Hact Hinv. unfold generate_query, try_except, run_chain_invoke.
  rewrite Hact, (remote_returned _ _ _ _ _ Hinv). reflexivity.
Qed.

Lemma generate_query_fallback (question : string) (st : St World)
  (e : PyExc) (w : World) :
  mentions_active C question = false ->
  chain_invoke C question (world st) = (Raised e, w) ->
  generate_query C question st
  = run_custom_chain C question table_schema
      (mkSt w (calls st ++ [CallChainInvoke question])).
Proof.
  intros Hact Hinv. unfold generate_query, try_except, run_chain_invoke.
  rewrite Hact, (remote_raised _ _ _ _ _ Hinv). reflexivity.
Qed.

(** What [generate_query] adds to the log: translation calls only, and the
    custom chain last whenever it raises. *)
Lemma generate_query_log (question : string) (st st' : St World)
  (r : PyResult string) :
  generate_query C question st = (r, st') ->
  exists added,
    calls st' = (calls st ++ added)%list
    /\ forallb (fun c => negb (is_narrative_generation c)
                         && negb (is_store_access c)) added = true.
Proof.
  intros H. destruct (mentions_active C question) eqn:Hact.
  - rewrite (generate_query_active _ _ Hact) in H.
    apply remote_inv in H. destruct H as [_ H].
    exists [CallCustomChainRun question table_schema]. split; [ exact H | reflexivity ].
  - destruct (chain_invoke C question (world st)) as [[query | e] w] eqn:Hinv.
    + rewrite (generate_query_generic _ _ _ _ Hact Hinv) in H.
      inversion H; subst; clear H. simpl.
      exists [CallChainInvoke question]. split; reflexivity.
    + rewrite (generate_query_fallback _ _ _ _ Hact Hinv) in H.
      apply remote_inv in H. destruct H as [_ H]. simpl in H.
      exists [CallChainInvoke question;
              CallCustomChainRun question table_schema].
      split; [ rewrite H, <- app_assoc; reflexivity | reflexivity ].
Qed.


(** The one equation of [execute_query]. *)
Lemma execute_query_eq (query : string) (st : St World) :
  execute_query C query st
  = (Returned
       match fst (db_run C query (world st)) with
       | Returned table => table
       | Raised e => VStr ("Error executing query: " ++ exc_str e)
       end,
     mkSt (snd (db_run C query (world st))) (calls st ++ [CallDbRun query])).
Proof.
  unfold execute_query, try_except, run_db. rewrite remote_eq.
  destruct (db_run C query (world st)) as [[table | e] w]; reflexivity.
Qed.

Lemma execute_query_inv (query : string) (st st' : St World) (v : PyValue) :
  execute_query C query st = (Returned v, st') ->
  v = match fst (db_run C query (world st)) with
      | Returned table => table
      | Raised e => VStr ("Error executing query: " ++ exc_str e)
      end
  /\ st' = mkSt (snd (db_run C query (world st)))
             (calls st ++ [CallDbRun query]).
Proof.
  rewrite execute_query_eq. intros H. injection H as Hv Hst.
  split; symmetry; assumption.
Qed.

Lemma execute_query_returns (query : string) (st : St World) :
  exists (v : PyValue) (st' : St World),
    execute_query C query st = (Returned v, st')
    /\ calls st' = (calls st ++ [CallDbRun query])%list.
Proof.
  rewrite execute_query_eq. eexists. eexists. split; reflexivity.
Qed.

End Generator.

Section GeneratorClaims.

Context {World : Type} (C : Collaborators World).

(** C1 (as amended): [execute_query] inspects no statement.  Every query
    string, a write statement included, is passed unchanged to the store's
    [run], exactly once, and the world that [run] leaves behind is kept;
    the value handed back is the store's result when [run] returns, and the
    error string carrying the failure message only when [run] itself
    raises. *)
Theorem execute_query_forwards_every_statement (query : string)
  (st : St World) :
  let outcome := db_run C query (world st) in
  snd (execute_query C query st)
  = mkSt (snd outcome) (calls st ++ [CallDbRun query])
  /\ fst (execute_query C query st)
     = match fst outcome with
       | Returned table => Returned table
       | Raised e => Returned (VStr ("Error executing query: " ++ exc_str e))
       end.
Proof.
  cbv zeta. rewrite execute_query_eq. simpl.
  destruct (fst (db_run C query (world st))); split; reflexivity.
Qed.

(** C3 (as amended): when the generic translation call raises,
    [generate_query] does not propagate that failure: it falls back to the
    custom prompt chain, also for a question outside the active pattern,
    and its outcome is the outcome of that chain.  It hands back the query
    string the chain returns, and it raises exactly when the fallback call
    itself raises. *)
Theorem generate_query_falls_back_to_custom_chain (question : string)
  (st : St World) (e : PyExc) (w : World) :
  mentions_active C question = false ->
  chain_invoke C question (world st) = (Raised e, w) ->
  let after_failure := mkSt w (calls st ++ [CallChainInvoke question]) in
  generate_query C question st
  = run_custom_chain C question table_schema after_failure
  /\ fst (generate_query C question st)
     = fst (custom_chain_run C question table_schema w)
  /\ calls (snd (generate_query C question st))
     = (calls st ++ [CallChainInvoke question;
                     CallCustomChainRun question table_schema])%list.
Proof.
  intros Hact Hinv after_failure.
  rewrite (generate_query_fallback C _ _ _ _ Hact Hinv).
  fold after_failure. unfold run_custom_chain. rewrite remote_eq.
  subst after_failure. simpl. rewrite <- app_assoc.
  repeat split; reflexivity.
Qed.

(** C4 (as amended): [execute_query] never raises.  For every query string
    it returns a value: the store's result, unchanged, when [run] returns
    one, and otherwise the plain string "Error executing query: " followed
    by the message of the failure.  That string is a [str] like any string
    result of the store, and no type sets it apart. *)
Theorem execute_query_never_raises (query : string) (st : St World) :
  exists (v : PyValue) (st' : St World),
    execute_query C query st = (Returned v, st')
    /\ v = match fst (db_run C query (world st)) with
           | Returned table => table
           | Raised e => VStr ("Error executing query: " ++ exc_str e)
           end.
Proof.
  rewrite execute_query_eq. eexists. eexists. split; reflexivity.
Qed.

(** C8 (as amended): a question that matches the active pattern (the
    keyword "アクティブ", or "active" in the lower-cased question) is handed
    to the custom prompt chain, a remote call given the question and the
    schema text, and to nothing else.  The outcome of [generate_query] is
    the outcome of that one call, the query it returns or the failure it
    raises, the world is the one the call leaves behind, and the log gains
    that call only: the generic translation chain is not invoked. *)
Theorem generate_query_active_uses_custom_chain (question : string)
  (st : St World) :
  mentions_active C question = true ->
  let outcome := custom_chain_run C question table_schema (world st) in
  generate_query C question st
  = (fst outcome,
     mkSt (snd outcome)
       (calls st ++ [CallCustomChainRun question table_schema]))
  /\ exists added,
       calls (snd (generate_query C question st)) = (calls st ++ added)%list
       /\ added = [CallCustomChainRun question table_schema]
       /\ existsb is_generic_translation added = false.
Proof.
  intros Hact outcome. subst outcome.
  unfold generate_query. rewrite Hact.
  unfold run_custom_chain, remote.
  destruct (custom_chain_run C question table_schema (world st)) as [r w].
  split; [ reflexivity | ].
  exists [CallCustomChainRun question table_schema].
  repeat split; reflexivity.
Qed.

End GeneratorClaims.

(** ** Presentation *)

Section PresenterClaims.

Context {World : Type} (C : Collaborators World).

Lemma frame_of_unsuitable (v : PyValue) :
  is_frame v = false -> is_nonempty_list v = false -> frame_of C v = None.
Proof.
  destruct v as [s | [ | first rest] | df | ]; simpl;
    intros Hf Hl; try reflexivity; discriminate.
Qed.

(** C6: for a result whose table has at most one row and at most one
    column, [_generate_visualization] returns [None], whatever the question
    says. *)
Theorem no_chart_for_a_scalar (question : string) (query_result : PyValue)
  (df : DataFrame) :
  frame_of C query_result = Some df ->
  df_len df <= 1 ->
  List.length (columns df) <= 1 ->
  _generate_visualization C question query_result = Returned None.
Proof.
  intros Hdf Hrows Hcols. unfold _generate_visualization. rewrite Hdf.
  apply Nat.leb_le in Hrows. apply Nat.leb_le in Hcols.
  rewrite Hrows, Hcols. reflexivity.
Qed.

(** C7 (as amended): for a question with a comparison, proportion or
    distribution keyword and no time-series keyword (those are tested
    first), [_generate_visualization] draws a pie chart of the first two
    columns when the table has exactly 2 columns and the bar chart of the
    whole frame when it has 3 or more. *)
Theorem comparison_chart_by_column_count (question : string)
  (query_result : PyValue) (df : DataFrame) :
  frame_of C query_result = Some df ->
  time_series_question question = false ->
  comparison_question question = true ->
  2 <= List.length (columns df) ->
  let fig :=
    if (List.length (columns df) =? 2)%nat then PieChart 0 1
    else BarChartFrame "カテゴリ" in
  _generate_visualization C question query_result
  = some_of (fig_to_base64 C df fig)
  /\ kind_of fig = if (List.length (columns df) =? 2)%nat then Pie else Bar.
Proof.
  intros Hdf Hts Hcmp Hcols fig. subst fig.
  unfold _generate_visualization. rewrite Hdf, Hts, Hcmp.
  assert (Hwide : (List.length (columns df) <=? 1)%nat = false)
    by (apply Nat.leb_gt; lia).
  rewrite Hwide, andb_false_r.
  unfold _create_comparison_plot, _create_bar_chart.
  destruct (List.length (columns df) =? 2)%nat; split; reflexivity.
Qed.

(** C10: a query result that is neither a DataFrame nor a non-empty list
    (a plain string, the empty list, any other object) gets no chart,
    whatever the question says. *)
Theorem no_chart_without_a_table (question : string)
  (query_result : PyValue) :
  is_frame query_result = false ->
  is_nonempty_list query_result = false ->
  _generate_visualization C question query_result = Returned None.
Proof.
  intros Hf Hl. unfold _generate_visualization.
  rewrite (frame_of_unsuitable _ Hf Hl). reflexivity.
Qed.

End PresenterClaims.

(** ** Orchestration *)

Section OrchestratorClaims.

Context {World : Type} (C : Collaborators World).

Lemma process_question_generation_raised (question : string)
  (st st1 : St World) (e : PyExc) :
  generate_query C question st = (Raised e, st1) ->
  process_question C question st = (Raised e, st1).
Proof.
  intros Hgen. unfold process_question, bind. rewrite Hgen. reflexivity.
Qed.

(** [process_question] once a query has been synthesized and executed. *)
Lemma process_question_after_execution (question : string)
  (st st1 st2 : St World) (sql : string) (v : PyValue) :
  generate_query C question st = (Returned sql, st1) ->
  execute_query C sql st1 = (Returned v, st2) ->
  process_question C question st
  = if is_error_result v then (Returned (error_reply C sql v), st2)
    else
      match _generate_visualization C question v with
      | Raised e => (Raised e, st2)
      | Returned chart =>
          let narration :=
            response_chain_run C question sql (str_of C v) (world st2) in
          (match fst narration with
           | Returned response =>
               Returned {| answer := response;
                           sql_query := sql;
                           visualization := chart |}
           | Raised e => Raised e
           end,
           mkSt (snd narration)
             (calls st2
              ++ [CallResponseChainRun question sql (str_of C v)]))
      end.
Proof.
  intros Hgen Hexec. unfold process_question, bind at 1. rewrite Hgen.
  unfold bind at 1. rewrite Hexec.
  destruct (is_error_result v); [ reflexivity | ].
  unfold bind, lift, run_response_chain.
  destruct (_generate_visualization C question v) as [chart | e];
    [ | reflexivity ].
  rewrite remote_eq. cbv zeta.
  destruct (fst (response_chain_run C question sql (str_of C v) (world st2)));
    reflexivity.
Qed.

Lemma error_string_is_error_result (msg : string) :
  is_error_result (VStr ("Error executing query: " ++ msg)) = true.
Proof. reflexivity. Qed.

(** C2: when the execution of the synthesized query fails, the answer of
    [process_question] is the apology followed by the executor's error
    string with the failure message, there is no chart, and the narrative
    service is not invoked: nothing but the translation calls and the one
    store call is added to the log. *)
Theorem process_question_on_execution_failure (question : string)
  (st st1 : St World) (sql : string) (e : PyExc) (w2 : World) :
  generate_query C question st = (Returned sql, st1) ->
  db_run C sql (world st1) = (Raised e, w2) ->
  exists added,
    process_question C question st
    = (Returned
         {| answer := apology ++ "Error executing query: " ++ exc_str e;
            sql_query := sql;
            visualization := None |},
       mkSt w2 (calls st ++ added))
    /\ existsb is_narrative_generation added = false.
Proof.
  intros Hgen Hdb.
  destruct (generate_query_log C _ _ _ _ Hgen) as (synth & Hlog & Hsynth).
  assert (Hexec : execute_query C sql st1
                  = (Returned (VStr ("Error executing query: " ++ exc_str e)),
                     mkSt w2 (calls st1 ++ [CallDbRun sql])))
    by (rewrite execute_query_eq, Hdb; reflexivity).
  rewrite (process_question_after_execution _ _ _ _ _ _ Hgen Hexec).
  rewrite error_string_is_error_result.
  exists (synth ++ [CallDbRun sql])%list. split.
  - rewrite Hlog, <- app_assoc. reflexivity.
  - rewrite existsb_app. simpl. rewrite orb_false_r.
    clear - Hsynth. induction synth as [ | c synth IH]; [ reflexivity | ].
    simpl in Hsynth |- *.
    apply andb_prop in Hsynth. destruct Hsynth as [Hc Hrest].
    apply andb_prop in Hc. destruct Hc as [Hc _].
    apply negb_true_iff in Hc. rewrite Hc. simpl. apply IH, Hrest.
Qed.


Lemma is_error_result_spec (v : PyValue) :
  is_error_result v = true
  <-> exists s, v = VStr s /\ PyStr.startswith s "Error" = true.
Proof.
  split.
  - destruct v as [s | items | df | ]; simpl; intros H; try discriminate.
    exists s. split; [ reflexivity | exact H ].
  - intros (s & -> & H). exact H.
Qed.

Lemma snoc_not_self {A : Type} (l : list A) (a : A) : (l ++ [a])%list <> l.
Proof.
  intros H. apply (f_equal (@List.length A)) in H.
  rewrite length_app in H. simpl in H. lia.
Qed.

(** C9: the error path of [process_question] is chosen by a prefix test on
    strings.  An executor failure is always handed over as a string that
    begins with "Error executing query: "; the error reply (apology, no
    chart, no narrative call) is produced exactly for the results that are
    strings beginning with "Error"; hence a query that succeeds with a
    string beginning with "Error" is answered with the apology as well. *)
Theorem error_path_is_a_prefix_test (question : string)
  (st st1 st2 : St World) (sql : string) (v : PyValue) :
  generate_query C question st = (Returned sql, st1) ->
  execute_query C sql st1 = (Returned v, st2) ->
  (forall e w,
      db_run C sql (world st1) = (Raised e, w) ->
      exists s,
        v = VStr s /\ PyStr.startswith s "Error executing query: " = true)
  /\ (process_question C question st = (Returned (error_reply C sql v), st2)
      <-> exists s, v = VStr s /\ PyStr.startswith s "Error" = true)
  /\ (forall s w,
        db_run C sql (world st1) = (Returned (VStr s), w) ->
        PyStr.startswith s "Error" = true ->
        process_question C question st
        = (Returned {| answer := apology ++ s;
                       sql_query := sql;
                       visualization := None |}, st2)).
Proof.
  intros Hgen Hexec.
  pose proof (process_question_after_execution _ _ _ _ _ _ Hgen Hexec)
    as Hrun.
  split; [ | split ].
  - intros e w Hdb.
    destruct (execute_query_inv C _ _ _ _ Hexec) as [Hv _].
    rewrite Hdb in Hv. cbn [fst] in Hv.
    exists ("Error executing query: " ++ exc_str e).
    split; [ exact Hv | apply startswith_append ].
  - rewrite <- is_error_result_spec, Hrun. split.
    + destruct (is_error_result v); [ reflexivity | ].
      destruct (_generate_visualization C question v) as [chart | e];
        [ | discriminate ].
      cbv zeta. intros H. exfalso. inversion H as [[Hreply Hst]].
      apply (f_equal calls) in Hst. simpl in Hst.
      exact (snoc_not_self _ _ Hst).
    + intros ->. reflexivity.
  - intros s w Hdb Hprefix.
    destruct (execute_query_inv C _ _ _ _ Hexec) as [Hv _].
    rewrite Hdb in Hv. cbn [fst] in Hv. subst v.
    rewrite Hrun. cbn [is_error_result]. rewrite Hprefix. reflexivity.
Qed.

End OrchestratorClaims.

(** ** The properties on the concrete collaborators *)

Section Runs.

Import Demo.

(** C1, counterexample: the statement [DELETE FROM purchases] is executed.
    The store is invoked with it, the purchases table is emptied, and the
    value returned is the store's empty string, not an error. *)
Lemma execute_query_runs_a_delete :
  let run := execute_query services "DELETE FROM purchases" healthy in
  fst run = Returned (VStr "")
  /\ calls (snd run) = [CallDbRun "DELETE FROM purchases"]
  /\ purchases (world healthy) = [1200; 300; 5400]%Z
  /\ purchases (world (snd run)) = []
  /\ ~ (exists msg,
          fst run = Returned (VStr ("Error executing query: " ++ msg))).
Proof.
  cbv zeta. repeat split.
  intros [msg H]. vm_compute in H. discriminate H.
Qed.

(** C3, counterexample: with both translation services down,
    [generate_query] raises on a question outside the active pattern: the
    failure of the fallback call is propagated. *)
Lemma generate_query_raises_when_fallback_fails :
  mentions_active services "users?" = false
  /\ generate_query services "users?" no_language_service
     = (Raised (Exception "prompt chain unavailable"),
        mkSt (world no_language_service)
          [CallChainInvoke "users?";
           CallCustomChainRun "users?" table_schema]).
Proof. split; reflexivity. Qed.


(** C7, counterexample: a question with a proportion keyword and a
    time-series keyword over a table of two columns gets the line chart,
    not the pie chart. *)
Lemma proportion_keyword_yields_line_chart :
  comparison_question "割合の推移" = true
  /\ List.length (columns by_category) = 2
  /\ _generate_visualization services "割合の推移" (VFrame by_category)
     = some_of (fig_to_base64 services by_category
                  (LineChart XIndex [LStr "category_name"; LStr "total"]
                     "インデックス"))
  /\ _generate_visualization services "割合の推移" (VFrame by_category)
     <> some_of (fig_to_base64 services by_category (PieChart 0 1)).
Proof. repeat split. discriminate. Qed.

(** C4, counterexample: the value returned for a failure carries no type of
    its own.  A failing statement and a successful one both come back as a
    plain string, and on the store that answers a quoted text with that
    text, a failure and a success come back as the same value. *)
Lemma execute_query_error_is_a_plain_string :
  fst (db_run services "drop it" (world healthy))
  = Raised (Exception "near syntax error")
  /\ fst (execute_query services "drop it" healthy)
     = Returned (VStr "Error executing query: near syntax error")
  /\ fst (db_run services "DELETE FROM purchases" (world healthy))
     = Returned (VStr "")
  /\ fst (execute_query services "DELETE FROM purchases" healthy)
     = Returned (VStr "")
  /\ fst (db_run Quoting.services
            "SELECT 'Error executing query: near syntax error'"
            (world healthy))
     = Returned (VStr "Error executing query: near syntax error")
  /\ fst (execute_query Quoting.services
            "SELECT 'Error executing query: near syntax error'" healthy)
     = fst (execute_query Quoting.services "drop it" healthy).
Proof. repeat split. Qed.

(** C8, counterexample: for a question in the active pattern no query is
    built by rule.  What [generate_query] yields is what the remote prompt
    chain yields: its text when the chain answers, and its failure, with no
    query at all, when it is down. *)
Lemma active_question_is_left_to_the_prompt_chain :
  mentions_active services "How many Active users?" = true
  /\ fst (generate_query services "How many Active users?" healthy)
     = Returned monthly_active_query
  /\ fst (generate_query services "How many Active users?"
            no_language_service)
     = Raised (Exception "prompt chain unavailable")
  /\ calls (snd (generate_query services "How many Active users?"
                   no_language_service))
     = [CallCustomChainRun "How many Active users?" table_schema].
Proof. repeat split. Qed.

(** C2 on a statement the store rejects. *)
Lemma process_question_on_execution_failure_run :
  generate_query services "drop it" healthy
  = (Returned "drop it", mkSt (world healthy) [CallChainInvoke "drop it"])
  /\ db_run services "drop it" (world healthy)
     = (Raised (Exception "near syntax error"), world healthy)
  /\ exists added,
       process_question services "drop it" healthy
       = (Returned
            {| answer :=
                 apology ++ "Error executing query: near syntax error";
               sql_query := "drop it";
               visualization := None |},
          mkSt (world healthy) added)
       /\ existsb is_narrative_generation added = false.
Proof.
  split; [ reflexivity | ]. split; [ reflexivity | ].
  apply (process_question_on_execution_failure services "drop it" healthy
           (mkSt (world healthy) [CallChainInvoke "drop it"]) "drop it"
           (Exception "near syntax error") (world healthy));
    reflexivity.
Defined.

(** C3 with the generic translation chain down and the prompt chain up. *)
Lemma generate_query_falls_back_run :
  mentions_active services "users?" = false
  /\ chain_invoke services "users?" (world no_translator)
     = (Raised (Exception "translation service unavailable"),
        world no_translator)
  /\ fst (generate_query services "users?" no_translator)
     = Returned monthly_active_query.
Proof.
  split; [ reflexivity | ]. split; [ reflexivity | ].
  exact (proj1 (proj2
    (generate_query_falls_back_to_custom_chain services "users?"
       no_translator (Exception "translation service unavailable")
       (world no_translator) eq_refl eq_refl))).
Defined.


(** C6 on a single count, asked with every chart keyword. *)
Lemma no_chart_for_a_scalar_run :
  frame_of services (VList [OScalar (CNumber 42)])
  = Some {| columns := [LStr "Value"]; rows := [[CNumber 42]] |}
  /\ _generate_visualization services "推移 トレンド 変化 比較 割合 分布"
       (VList [OScalar (CNumber 42)]) = Returned None.
Proof.
  split; [ reflexivity | ].
  apply (no_chart_for_a_scalar services _ _
           {| columns := [LStr "Value"]; rows := [[CNumber 42]] |});
    [ reflexivity | vm_compute; lia | vm_compute; lia ].
Defined.

(** C7 on the two-column table of totals by category. *)
Lemma comparison_chart_by_column_count_run :
  time_series_question "カテゴリ別の割合" = false
  /\ comparison_question "カテゴリ別の割合" = true
  /\ _generate_visualization services "カテゴリ別の割合" (VFrame by_category)
     = Returned (Some "pie").
Proof.
  split; [ reflexivity | ]. split; [ reflexivity | ].
  refine (proj1 (comparison_chart_by_column_count services
                   "カテゴリ別の割合" (VFrame by_category) by_category
                   eq_refl eq_refl eq_refl _)).
  simpl. lia.
Defined.

(** C8 on a question that spells the keyword with a capital. *)
Lemma generate_query_active_uses_custom_chain_run :
  mentions_active services "How many Active users?" = true
  /\ generate_query services "How many Active users?" healthy
     = (Returned monthly_active_query,
        mkSt (world healthy)
          [CallCustomChainRun "How many Active users?" table_schema]).
Proof.
  split; [ reflexivity | ].
  exact (proj1 (generate_query_active_uses_custom_chain services
                  "How many Active users?" healthy eq_refl)).
Defined.

(** C9 on a query that succeeds with a string beginning with "Error". *)
Lemma error_path_is_a_prefix_test_run :
  db_run services "SELECT 'Error budget'" (world healthy)
  = (Returned (VStr "Error budget"), world healthy)
  /\ process_question services "SELECT 'Error budget'" healthy
     = (Returned {| answer := apology ++ "Error budget";
                    sql_query := "SELECT 'Error budget'";
                    visualization := None |},
        mkSt (world healthy)
          [CallChainInvoke "SELECT 'Error budget'";
           CallDbRun "SELECT 'Error budget'"]).
Proof.
  split; [ reflexivity | ].
  exact (proj2 (proj2
    (error_path_is_a_prefix_test services "SELECT 'Error budget'" healthy
       (mkSt (world healthy) [CallChainInvoke "SELECT 'Error budget'"])
       (mkSt (world healthy)
          [CallChainInvoke "SELECT 'Error budget'";
           CallDbRun "SELECT 'Error budget'"])
       "SELECT 'Error budget'" (VStr "Error budget") eq_refl eq_refl))
    "Error budget" (world healthy) eq_refl eq_refl).
Defined.

(** C10 on a plain string and on the empty list. *)
Lemma no_chart_without_a_table_run :
  _generate_visualization services "割合の推移" (VStr "[(3,)]")
  = Returned None
  /\ _generate_visualization services "割合の推移" (VList [])
     = Returned None.
Proof.
  split; apply no_chart_without_a_table; reflexivity.
Defined.

End Runs.

(** * Further properties of the code *)

(** ** Substrings *)

Section Substrings.





End Substrings.

(** ** Which chart, and when none *)

Section PresenterProperties.

Context {World : Type} (C : Collaborators World).

Lemma some_of_not_none {A : Type} (r : PyResult A) :
  some_of r <> Returned None.
Proof. destruct r; discriminate. Qed.

Lemma some_of_returned {A : Type} (r : PyResult A) (a : A) :
  some_of r = Returned (Some a) -> r = Returned a.
Proof. destruct r; simpl; intros H; inversion H; reflexivity. Qed.


(** The figure drawn by each helper. *)
Lemma bar_chart_figure (df : DataFrame) :
  exists fig,
    _create_bar_chart C df = fig_to_base64 C df fig /\ kind_of fig = Bar.
Proof.
  unfold _create_bar_chart.
  destruct (List.length (columns df) =? 2)%nat; eexists; split; reflexivity.
Qed.

Lemma comparison_figure (df : DataFrame) :
  exists fig,
    _create_comparison_plot C df = fig_to_base64 C df fig
    /\ kind_of fig = if (List.length (columns df) =? 2)%nat then Pie else Bar.
Proof.
  unfold _create_comparison_plot, _create_bar_chart.
  destruct (List.length (columns df) =? 2)%nat; eexists; split; reflexivity.
Qed.

Lemma date_columns_raised (cols : list Label) (e : PyExc) :
  date_columns C cols = Raised e ->
  (exists z, In (LInt z) cols) /\ e = Exception "'int' object has no attribute 'lower'".
Proof.
  induction cols as [ | [name | z] rest IH]; cbn [date_columns];
    [ discriminate | | ].
  - destruct (date_columns C rest) as [found | e']; [ discriminate | ].
    intros H. inversion H; subst e'.
    destruct (IH eq_refl) as [[z Hz] He].
    split; [ exists z; right; exact Hz | exact He ].
  - intros H. inversion H.
    split; [ exists z; left; reflexivity | reflexivity ].
Qed.


Lemma time_series_outcome (df : DataFrame) :
  ((exists z, In (LInt z) (columns df))
   /\ _create_time_series_plot C df
      = Raised (Exception "'int' object has no attribute 'lower'"))
  \/ (exists fig,
        _create_time_series_plot C df = fig_to_base64 C df fig
        /\ kind_of fig = Line).
Proof.
  unfold _create_time_series_plot.
  destruct (date_columns C (columns df)) as [[ | d found] | e] eqn:Hd.
  - right. eexists. split; reflexivity.
  - right. eexists. split; reflexivity.
  - left. destruct (date_columns_raised _ _ Hd) as [Hz ->].
    split; [ exact Hz | reflexivity ].
Qed.

(** X1: [_generate_visualization] returns [None] in exactly three
    situations: the result cannot be turned into a table; the table has at
    most one row and at most one column; or the question has no chart
    keyword and the table has at most one row or at most one column. *)
Theorem no_chart_exactly_when (question : string) (query_result : PyValue) :
  _generate_visualization C question query_result = Returned None
  <-> match frame_of C query_result with
      | None => True
      | Some df =>
          (df_len df <= 1 /\ List.length (columns df) <= 1)
          \/ (time_series_question question = false
              /\ comparison_question question = false
              /\ (df_len df <= 1 \/ List.length (columns df) <= 1))
      end.
Proof.
  unfold _generate_visualization.
  destruct (frame_of C query_result) as [df | ]; [ | tauto ].
  destruct (df_len df <=? 1)%nat eqn:Hrows;
    destruct (List.length (columns df) <=? 1)%nat eqn:Hcols; cbn [andb];
    try apply Nat.leb_le in Hrows; try apply Nat.leb_gt in Hrows;
    try apply Nat.leb_le in Hcols; try apply Nat.leb_gt in Hcols.
  - tauto.
  - destruct (time_series_question question).
    + split; [ intros H; elim (some_of_not_none _ H) | ].
      intros [[_ H] | (H & _)]; [ lia | discriminate ].
    + destruct (comparison_question question).
      * split; [ intros H; elim (some_of_not_none _ H) | ].
        intros [[_ H] | (_ & H & _)]; [ lia | discriminate ].
      * assert (Hlt : (1 <? df_len df)%nat = false) by (apply Nat.ltb_ge; lia).
        rewrite Hlt. cbn [andb]. split; [ intros _ | reflexivity ].
        right. repeat split. left. exact Hrows.
  - destruct (time_series_question question).
    + split; [ intros H; elim (some_of_not_none _ H) | ].
      intros [[H _] | (H & _)]; [ lia | discriminate ].
    + destruct (comparison_question question).
      * split; [ intros H; elim (some_of_not_none _ H) | ].
        intros [[H _] | (_ & H & _)]; [ lia | discriminate ].
      * assert (Hle : (2 <=? List.length (columns df))%nat = false)
          by (apply Nat.leb_gt; lia).
        rewrite Hle, andb_false_r. split; [ intros _ | reflexivity ].
        right. repeat split. right. exact Hcols.
  - destruct (time_series_question question).
    + split; [ intros H; elim (some_of_not_none _ H) | ].
      intros [[H _] | (H & _)]; [ lia | discriminate ].
    + destruct (comparison_question question).
      * split; [ intros H; elim (some_of_not_none _ H) | ].
        intros [[H _] | (_ & H & _)]; [ lia | discriminate ].
      * assert (Hlt : (1 <? df_len df)%nat = true) by (apply Nat.ltb_lt; lia).
        assert (Hle : (2 <=? List.length (columns df))%nat = true)
          by (apply Nat.leb_le; lia).
        rewrite Hlt, Hle. cbn [andb].
        split; [ intros H; elim (some_of_not_none _ H) | ].
        intros [[H _] | (_ & _ & [H | H])]; lia.
Qed.

(** X2: whenever a chart is produced, it is the rendering of one figure over
    the table, and the kind of that figure follows the keyword priority: a
    line chart if the question has a time-series keyword; otherwise a pie
    chart if it has a comparison keyword and the table has exactly two
    columns; otherwise a bar chart. *)
Theorem chart_kind_follows_keyword_priority (question : string)
  (query_result : PyValue) (image : string) :
  _generate_visualization C question query_result = Returned (Some image) ->
  exists df fig,
    frame_of C query_result = Some df
    /\ fig_to_base64 C df fig = Returned image
    /\ kind_of fig
       = if time_series_question question then Line
         else if comparison_question question
                 && (List.length (columns df) =? 2)%nat
              then Pie else Bar.
Proof.
  unfold _generate_visualization.
  destruct (frame_of C query_result) as [df | ]; [ | discriminate ].
  destruct ((df_len df <=? 1)%nat && (List.length (columns df) <=? 1)%nat);
    [ discriminate | ].
  destruct (time_series_question question).
  - intros H. apply some_of_returned in H.
    destruct (time_series_outcome df) as [[_ Hraise] | (fig & Hfig & Hkind)];
      [ rewrite Hraise in H; discriminate | ].
    exists df, fig. rewrite <- Hfig. auto.
  - destruct (comparison_question question); cbn [andb].
    + intros H. apply some_of_returned in H.
      destruct (comparison_figure df) as (fig & Hfig & Hkind).
      exists df, fig. rewrite <- Hfig. auto.
    + destruct ((1 <? df_len df)%nat && (2 <=? List.length (columns df))%nat);
        [ | discriminate ].
      intros H. apply some_of_returned in H.
      destruct (bar_chart_figure df) as (fig & Hfig & Hkind).
      exists df, fig. rewrite <- Hfig. auto.
Qed.


(** X4: a failure of the [pd.DataFrame] constructor on a list result is
    swallowed: the outcome is [None], with any question. *)
Theorem frame_construction_failure_gives_no_chart (question : string)
  (first : PyObj) (rest : list PyObj) (e : PyExc) :
  pd_DataFrame C (first :: rest)
    (if is_dict first then None else Some ["Value"]) = Raised e ->
  _generate_visualization C question (VList (first :: rest)) = Returned None.
Proof.
  intros H. unfold _generate_visualization, frame_of.
  destruct (is_dict first); rewrite H; reflexivity.
Qed.





End PresenterProperties.

(** ** The calls made for one question *)

Section OrchestratorProperties.

Context {World : Type} (C : Collaborators World).

(** X6: [generate_query] calls the generic chain at most once, and only for
    a question outside the active pattern; it calls the custom prompt chain
    at most once, exactly when the question is in the active pattern or the
    generic chain has just raised. *)
Theorem generate_query_call_pattern (question : string) (st : St World) :
  calls (snd (generate_query C question st))
  = (calls st
     ++ if mentions_active C question then
          [CallCustomChainRun question table_schema]
        else
          match fst (chain_invoke C question (world st)) with
          | Returned _ => [CallChainInvoke question]
          | Raised _ => [CallChainInvoke question;
                         CallCustomChainRun question table_schema]
          end)%list.
Proof.
  destruct (mentions_active C question) eqn:Hact.
  - rewrite (generate_query_active C _ _ Hact).
    unfold run_custom_chain. rewrite remote_eq. reflexivity.
  - destruct (chain_invoke C question (world st)) as [[query | e] w] eqn:Hinv.
    + rewrite (generate_query_generic C _ _ _ _ Hact Hinv). reflexivity.
    + rewrite (generate_query_fallback C _ _ _ _ Hact Hinv).
      unfold run_custom_chain. rewrite remote_eq. simpl.
      rewrite <- app_assoc. reflexivity.
Qed.

Lemma generate_query_translation_calls (question : string)
  (st st' : St World) (r : PyResult string) :
  generate_query C question st = (r, st') ->
  exists synth,
    calls st' = (calls st ++ synth)%list
    /\ (synth = [CallCustomChainRun question table_schema]
        \/ synth = [CallChainInvoke question]
        \/ synth = [CallChainInvoke question;
                    CallCustomChainRun question table_schema]).
Proof.
  intros H. destruct (mentions_active C question) eqn:Hact.
  - rewrite (generate_query_active C _ _ Hact) in H.
    apply remote_inv in H. destruct H as [_ H].
    eexists. split; [ exact H | left; reflexivity ].
  - destruct (chain_invoke C question (world st)) as [[query | e] w] eqn:Hinv.
    + rewrite (generate_query_generic C _ _ _ _ Hact Hinv) in H.
      inversion H; subst; clear H. cbn [calls].
      eexists. split; [ reflexivity | right; left; reflexivity ].
    + rewrite (generate_query_fallback C _ _ _ _ Hact Hinv) in H.
      apply remote_inv in H. destruct H as [_ H]. cbn [calls] in H.
      eexists. split; [ rewrite H, <- app_assoc; reflexivity | ].
      right. right. reflexivity.
Qed.

(** X7: for one question [process_question] makes its remote calls in a
    fixed order.  First the translation calls: the custom prompt chain
    alone, the generic chain alone, or the generic chain followed by the
    custom prompt chain.  Then at most one statement run on the store, and
    then at most one narrative request, for the statement that was run.
    The store is left out only when the translation raised. *)
Theorem process_question_call_pattern (question : string) (st : St World) :
  exists synth tail,
    calls (snd (process_question C question st))
    = (calls st ++ synth ++ tail)%list
    /\ (synth = [CallCustomChainRun question table_schema]
        \/ synth = [CallChainInvoke question]
        \/ synth = [CallChainInvoke question;
                    CallCustomChainRun question table_schema])
    /\ (tail = []
        \/ (exists sql, tail = [CallDbRun sql])
        \/ (exists sql rendered,
              tail = [CallDbRun sql;
                      CallResponseChainRun question sql rendered]))
    /\ (tail = [] ->
        exists e, fst (process_question C question st) = Raised e).
Proof.
  destruct (generate_query C question st) as [[sql | e] st1] eqn:Hgen.
  - destruct (generate_query_translation_calls _ _ _ _ Hgen)
      as (synth & Hlog & Hsynth).
    destruct (execute_query_returns C sql st1) as (v & st2 & Hexec & Hst2).
    rewrite (process_question_after_execution C _ _ _ _ _ _ Hgen Hexec).
    exists synth.
    destruct (is_error_result v).
    + exists [CallDbRun sql]. cbn [snd]. rewrite Hst2, Hlog, <- app_assoc.
      split; [ reflexivity | ]. split; [ exact Hsynth | ].
      split; [ right; left; exists sql; reflexivity | discriminate ].
    + destruct (_generate_visualization C question v) as [chart | e].
      * exists [CallDbRun sql;
                CallResponseChainRun question sql (str_of C v)].
        cbv zeta. cbn [snd calls]. rewrite Hst2, Hlog.
        repeat rewrite <- app_assoc.
        split; [ reflexivity | ]. split; [ exact Hsynth | ].
        split; [ | discriminate ].
        right. right. exists sql, (str_of C v). reflexivity.
      * exists [CallDbRun sql]. cbn [snd]. rewrite Hst2, Hlog, <- app_assoc.
        split; [ reflexivity | ]. split; [ exact Hsynth | ].
        split; [ right; left; exists sql; reflexivity | discriminate ].
  - rewrite (process_question_generation_raised C _ _ _ _ Hgen).
    destruct (generate_query_translation_calls _ _ _ _ Hgen)
      as (synth & Hlog & Hsynth).
    exists synth, []. cbn [snd fst]. rewrite app_nil_r.
    split; [ exact Hlog | ]. split; [ exact Hsynth | ].
    split; [ left; reflexivity | intros _; exists e; reflexivity ].
Qed.

(** X8: every reply of [process_question] shows the statement that was
    synthesized and then run on the store.  The reply is either the error
    reply for a result that looks like an error, or it carries the text of
    the narrative service together with the outcome of
    [_generate_visualization] on the result. *)
Theorem process_question_reply_cases (question : string) (st st' : St World)
  (reply : Response) :
  process_question C question st = (Returned reply, st') ->
  exists st1 v st2,
    generate_query C question st = (Returned (sql_query reply), st1)
    /\ execute_query C (sql_query reply) st1 = (Returned v, st2)
    /\ ((is_error_result v = true
         /\ reply = error_reply C (sql_query reply) v
         /\ st' = st2)
        \/ (is_error_result v = false
            /\ _generate_visualization C question v
               = Returned (visualization reply)
            /\ response_chain_run C question (sql_query reply) (str_of C v)
                 (world st2)
               = (Returned (answer reply), world st')
            /\ calls st'
               = (calls st2
                  ++ [CallResponseChainRun question (sql_query reply)
                        (str_of C v)])%list)).
Proof.
  intros Hrun.
  destruct (generate_query C question st) as [[sql | e] st1] eqn:Hgen.
  - destruct (execute_query_returns C sql st1) as (v & st2 & Hexec & Hst2).
    rewrite (process_question_after_execution C _ _ _ _ _ _ Hgen Hexec)
      in Hrun.
    destruct (is_error_result v) eqn:Herr.
    + inversion Hrun; subst reply st'; clear Hrun. simpl.
      exists st1, v, st2. split; [ reflexivity | ]. split; [ exact Hexec | ].
      left. split; [ exact Herr | split; reflexivity ].
    + destruct (_generate_visualization C question v) as [chart | e] eqn:Hviz;
        [ | discriminate ].
      cbv zeta in Hrun.
      destruct (response_chain_run C question sql (str_of C v) (world st2))
        as [[response | e] w3] eqn:Hnarr; simpl in Hrun; [ | discriminate ].
      inversion Hrun; subst reply st'; clear Hrun. simpl.
      exists st1, v, st2. split; [ reflexivity | ]. split; [ exact Hexec | ].
      right. split; [ exact Herr | ]. split; [ exact Hviz | ].
      split; [ exact Hnarr | reflexivity ].
  - rewrite (process_question_generation_raised C _ _ _ _ Hgen) in Hrun.
    discriminate.
Qed.


End OrchestratorProperties.

(** ** Database connections *)

Section ConnectionProperties.

Import DbConnection.

Context {Engine : Type}.
Variable create_engine : string -> PyResult Engine.
Variable lower : string -> string.

Lemma connect_to_cases (self : DatabaseConnection Engine) (url : string) :
  (exists e,
      create_engine url = Returned e
      /\ connect_to create_engine self url = (Returned e, connected self e))
  \/ (exists x,
        create_engine url = Raised x
        /\ connect_to create_engine self url = (Raised x, self)).
Proof.
  unfold connect_to. destruct (create_engine url) as [e | x].
  - left. exists e. split; reflexivity.
  - right. exists x. split; reflexivity.
Qed.

Lemma connect_cases (self : DatabaseConnection Engine) :
  (supported lower (db_type self) = true
   /\ exists url, connect create_engine lower self
                  = connect_to create_engine self url)
  \/ (supported lower (db_type self) = false
      /\ connect create_engine lower self
         = (Raised (Exception ("Unsupported database type: "
                               ++ db_type self)), self)).
Proof.
  unfold connect, supported.
  destruct (String.eqb (lower (db_type self)) "sqlite");
    [ left; split; [ reflexivity | eexists; reflexivity ] | ].
  destruct (String.eqb (lower (db_type self)) "mysql");
    [ left; split; [ reflexivity | eexists; reflexivity ] | ].
  destruct (String.eqb (lower (db_type self)) "postgresql");
    [ left; split; [ reflexivity | eexists; reflexivity ] | ].
  right. split; reflexivity.
Qed.

(** What a call of [connect] leaves behind. *)
Lemma connect_outcome (self : DatabaseConnection Engine) :
  match connect create_engine lower self with
  | (Returned e, self') =>
      supported lower (db_type self) = true
      /\ (exists url, create_engine url = Returned e)
      /\ self' = connected self e
  | (Raised x, self') => self' = self
  end.
Proof.
  destruct (connect_cases self) as [[Hs [url Hc]] | [_ Hc]]; rewrite Hc.
  - destruct (connect_to_cases self url) as [(e & He & Hto) | (x & _ & Hto)];
      rewrite Hto.
    + split; [ exact Hs | ]. split; [ exists url; exact He | reflexivity ].
    + reflexivity.
  - reflexivity.
Qed.

(** X10: [connect] on a type other than sqlite, mysql and postgresql
    (compared in lower case) raises "Unsupported database type: " followed
    by the type as it was given, and leaves the connection object as it
    was. *)
Theorem connect_rejects_unsupported_type (self : DatabaseConnection Engine) :
  supported lower (db_type self) = false ->
  connect create_engine lower self
  = (Raised (Exception ("Unsupported database type: " ++ db_type self)),
     self).
Proof.
  intros H. destruct (connect_cases self) as [[H' _] | [_ H']];
    [ congruence | exact H' ].
Qed.

(** X11: when [connect] returns an engine, the type is one of the three
    supported ones, the engine is the one the factory made, and the object
    now holds that engine and a session factory bound to it; the settings
    are unchanged. *)
Theorem connect_installs_engine_and_session
  (self self' : DatabaseConnection Engine) (e : Engine) :
  connect create_engine lower self = (Returned e, self') ->
  supported lower (db_type self) = true
  /\ (exists url, create_engine url = Returned e)
  /\ engine self' = Some e
  /\ Session self' = Some (sessionmaker e)
  /\ self' = connected self e.
Proof.
  intros H. pose proof (connect_outcome self) as O. rewrite H in O.
  destruct O as (Hs & Hurl & ->). repeat split; assumption.
Qed.

(** X12: a [connect] that raises changes nothing: the engine and the session
    factory of the object are what they were before the call. *)
Theorem connect_failure_changes_nothing
  (self self' : DatabaseConnection Engine) (x : PyExc) :
  connect create_engine lower self = (Raised x, self') -> self' = self.
Proof.
  intros H. pose proof (connect_outcome self) as O. rewrite H in O. exact O.
Qed.

(** The recorded methods are the plain ones with the record added. *)
Lemma connect_recorded_outcome (self : DatabaseConnection Engine)
  (made : list string) :
  fst (connect_recorded create_engine lower self made)
  = connect create_engine lower self
  /\ (snd (connect_recorded create_engine lower self made) = made
      \/ exists url,
           snd (connect_recorded create_engine lower self made)
           = (made ++ [url])%list).
Proof.
  unfold connect_recorded, connect, connect_to_recorded, connect_to.
  destruct (String.eqb (lower (db_type self)) "sqlite");
    [ destruct (create_engine _); split;
        [ reflexivity | right; eexists; reflexivity
        | reflexivity | right; eexists; reflexivity ] | ].
  destruct (String.eqb (lower (db_type self)) "mysql");
    [ destruct (create_engine _); split;
        [ reflexivity | right; eexists; reflexivity
        | reflexivity | right; eexists; reflexivity ] | ].
  destruct (String.eqb (lower (db_type self)) "postgresql");
    [ destruct (create_engine _); split;
        [ reflexivity | right; eexists; reflexivity
        | reflexivity | right; eexists; reflexivity ] | ].
  split; [ reflexivity | left; reflexivity ].
Qed.

Lemma get_session_recorded_plain (self : DatabaseConnection Engine)
  (made : list string) :
  fst (get_session_recorded create_engine lower self made)
  = get_session create_engine lower self.
Proof.
  unfold get_session_recorded, get_session.
  destruct (Session self) as [[e] | ]; [ reflexivity | ].
  destruct (connect_recorded_outcome self made) as [Hfst _].
  destruct (connect_recorded create_engine lower self made)
    as [[r self1] made1].
  cbn [fst] in Hfst. rewrite <- Hfst.
  destruct r as [e | x]; [ | reflexivity ].
  destruct (Session self1) as [[e1] | ]; reflexivity.
Qed.

(** X13: [get_session] connects at most once.  A call that returns a
    session asks [create_engine] for at most one engine and leaves the
    object with a session factory bound to the session's engine; a second
    call on that object asks for no engine at all, changes nothing and
    returns a session on the same engine. *)
Theorem get_session_connects_once
  (self self' : DatabaseConnection Engine) (s : SessionObject Engine)
  (made made' : list string) :
  get_session_recorded create_engine lower self made
  = ((Returned s, self'), made') ->
  (exists e, s = session_of e /\ Session self' = Some (sessionmaker e))
  /\ (made' = made \/ exists url, made' = (made ++ [url])%list)
  /\ get_session_recorded create_engine lower self' made'
     = ((Returned s, self'), made')
  /\ get_session create_engine lower self = (Returned s, self')
  /\ get_session create_engine lower self' = (Returned s, self').
Proof.
  intros Hrun.
  assert (Hplain : get_session create_engine lower self = (Returned s, self'))
    by (rewrite <- (get_session_recorded_plain self made), Hrun; reflexivity).
  assert (Hbound : exists e,
             s = session_of e /\ Session self' = Some (sessionmaker e)).
  { revert Hplain. unfold get_session.
    destruct (Session self) as [[e] | ] eqn:Hs.
    - intros H. inversion H; subst s self'.
      exists e. split; [ reflexivity | exact Hs ].
    - pose proof (connect_outcome self) as O.
      destruct (connect create_engine lower self) as [[e | x] self1];
        [ | discriminate ].
      destruct O as (_ & _ & ->). cbn [Session connected].
      intros H. inversion H; subst s self'.
      exists e. split; reflexivity. }
  assert (Hmade : made' = made \/ exists url, made' = (made ++ [url])%list).
  { revert Hrun. unfold get_session_recorded.
    destruct (Session self) as [[e] | ].
    - intros H. inversion H. left. reflexivity.
    - destruct (connect_recorded_outcome self made) as [_ Hsnd].
      destruct (connect_recorded create_engine lower self made)
        as [[[e | x] self1] made1]; cbn [snd] in Hsnd.
      + destruct (Session self1) as [[e1] | ]; intros H; inversion H;
          subst; exact Hsnd.
      + discriminate. }
  destruct Hbound as (e & -> & Hs').
  split; [ exists e; split; [ reflexivity | exact Hs' ] | ].
  split; [ exact Hmade | ].
  split; [ unfold get_session_recorded; rewrite Hs'; reflexivity | ].
  split; [ exact Hplain | unfold get_session; rewrite Hs'; reflexivity ].
Qed.

(** X14: [get_session] raises only on an object that is not connected yet,
    and then the failure is the failure of [connect], the object staying
    unconnected. *)
Theorem get_session_fails_as_connect
  (self self' : DatabaseConnection Engine) (x : PyExc) :
  get_session create_engine lower self = (Raised x, self') ->
  Session self = None
  /\ connect create_engine lower self = (Raised x, self)
  /\ self' = self.
Proof.
  unfold get_session.
  destruct (Session self) as [[e] | ] eqn:Hs; [ discriminate | ].
  destruct (connect create_engine lower self) as [[e | x'] self1] eqn:Hc.
  - pose proof (connect_outcome self) as O. rewrite Hc in O.
    destruct O as (_ & _ & ->). cbn [Session connected]. discriminate.
  - intros H. inversion H; subst x' self'; clear H.
    pose proof (connect_outcome self) as O. rewrite Hc in O. subst self1.
    repeat split.
Qed.

(** X15: with no connection given and [DB_TYPE] unset, the generator
    connects to the SQLite file named by [DB_PATH], or to
    [db/data/credit_card_users.db] when that is unset too; the host, port,
    name, user and password of the environment play no part. *)
Theorem default_connection_is_the_sqlite_file (env : Environ) :
  env "DB_TYPE" = None ->
  lower "sqlite" = "sqlite" ->
  fst (generator_engine create_engine lower env None)
  = create_engine
      ("sqlite:///" ++ getenv_or env "DB_PATH" "db/data/credit_card_users.db").
Proof.
  intros Htype Hlower.
  unfold generator_engine, get_db_connection, getenv_or, connect.
  rewrite Htype. cbn [or_str init db_type db_path]. rewrite Hlower.
  cbn [String.eqb Ascii.eqb Bool.eqb]. unfold connect_to.
  destruct (create_engine _); reflexivity.
Qed.

End ConnectionProperties.

(** ** The chat handler *)

Section HandlerProperties.

Import App.

Context {World : Type} (C : Collaborators World).

Lemma startswith_refl (s : string) : PyStr.startswith s s = true.
Proof.
  unfold PyStr.startswith. induction s as [ | c s IH]; simpl;
    [ reflexivity | ].
  destruct (ascii_dec c c); [ exact IH | contradiction ].
Qed.

Lemma append_empty (s : string) : s ++ "" = s.
Proof.
  induction s as [ | c s IH]; simpl; [ reflexivity | rewrite IH; reflexivity ].
Qed.

(** X16: [on_message] always sends the "考え中..." message first.  If the
    pipeline raises, nothing else is sent and the failure leaves the
    handler; if it returns, exactly one more message is sent, whose text
    begins with the answer and which carries at most one image, none when
    the reply has no chart or an empty one. *)
Theorem on_message_acknowledges_then_answers (message_content : string)
  (a : Session World) :
  match process_question C message_content (core a) with
  | (Raised e, st) =>
      on_message C message_content a
      = (Raised e, mkSession st (sent a ++ [thinking]))
  | (Returned response, st) =>
      exists m,
        on_message C message_content a
        = (Returned tt, mkSession st (sent a ++ [thinking; m]))
        /\ PyStr.startswith (content m) (answer response) = true
        /\ List.length (elements m) <= 1
        /\ (elements m = []
            <-> visualization response = None
                \/ visualization response = Some "")
  end.
Proof.
  unfold on_message.
  destruct (process_question C message_content (core a))
    as [[response | e] st]; [ | reflexivity ].
  eexists. split.
  - rewrite <- app_assoc. reflexivity.
  - cbn [content elements]. split; [ | split ].
    + destruct (truthy (sql_query response));
        [ apply startswith_append | apply startswith_refl ].
    + destruct (visualization response) as [image | ];
        [ destruct (truthy image) | ]; simpl; lia.
    + destruct (visualization response) as [[ | c image] | ]; simpl.
      * split; [ intros _; right; reflexivity | reflexivity ].
      * split; [ discriminate | intros [H | H]; discriminate ].
      * split; [ intros _; left; reflexivity | reflexivity ].
Qed.

(** X17: when the store fails on the synthesized statement, the user gets,
    after the "考え中..." message, one message without image: the apology with
    the error text, followed by the statement in a code block unless the
    statement is empty. *)
Theorem on_message_reports_execution_failure (message_content : string)
  (a : Session World) (st1 : St World) (sql : string) (e : PyExc)
  (w2 : World) :
  generate_query C message_content (core a) = (Returned sql, st1) ->
  db_run C sql (world st1) = (Raised e, w2) ->
  on_message C message_content a
  = (Returned tt,
     mkSession (mkSt w2 (calls st1 ++ [CallDbRun sql]))
       (sent a
        ++ [thinking;
            {| content :=
                 (apology ++ "Error executing query: " ++ exc_str e)
                 ++ (if String.eqb sql "" then "" else sql_block sql);
               elements := [] |}])).
Proof.
  intros Hgen Hdb.
  assert (Hexec : execute_query C sql st1
                  = (Returned (VStr ("Error executing query: " ++ exc_str e)),
                     mkSt w2 (calls st1 ++ [CallDbRun sql])))
    by (rewrite execute_query_eq, Hdb; reflexivity).
  unfold on_message.
  rewrite (process_question_after_execution C _ _ _ _ _ _ Hgen Hexec).
  rewrite error_string_is_error_result.
  cbn [answer sql_query visualization error_reply str_of].
  unfold truthy. rewrite <- app_assoc.
  destruct (String.eqb sql ""); cbn [negb].
  - rewrite append_empty. reflexivity.
  - reflexivity.
Qed.

End HandlerProperties.

(** ** The demo data script *)

Section ScriptProperties.

Import DemoData.

Context {Rng : Type}.
Variable randrange : Z -> Rng -> Z * Rng.
Variable randint : Z -> Z -> Rng -> Z * Rng.
Variable random_below : Z -> Rng -> bool * Rng.

Lemma random_date_between (start_date end_date : Z) (g : Rng) :
  randrange_in_range randrange ->
  (start_date <= fst (random_date randrange start_date end_date g)
   <= Z.max start_date end_date)%Z.
Proof.
  clear randint random_below.
  intros Hrange. unfold random_date.
  destruct ((end_date - start_date) / day <=? 0)%Z eqn:Hdays.
  - simpl. lia.
  - apply Z.leb_gt in Hdays.
    pose proof (Hrange _ g Hdays) as Hk.
    destruct (randrange ((end_date - start_date) / day)%Z g) as [k g'].
    simpl in Hk |- *.
    assert (Hday : (0 < day)%Z) by reflexivity.
    pose proof (Z.mul_div_le (end_date - start_date) day Hday).
    nia.
Qed.

(** X18: [random_date] returns [start_date] plus a whole number of days,
    never before [start_date]; when [start_date <= end_date] the result is
    not after [end_date]; and when the two dates are less than a day apart,
    or in the wrong order, it is [start_date] itself and no random number is
    drawn. *)
Theorem random_date_stays_in_range (start_date end_date : Z) (g : Rng) :
  randrange_in_range randrange ->
  let r := fst (random_date randrange start_date end_date g) in
  (exists k, (0 <= k)%Z /\ r = (start_date + k * day)%Z)
  /\ (start_date <= end_date -> r <= end_date)%Z
  /\ ((end_date - start_date < day)%Z ->
      random_date randrange start_date end_date g = (start_date, g)).
Proof.
  clear randint random_below.
  intros Hrange r. subst r. unfold random_date.
  assert (Hday : (0 < day)%Z) by reflexivity.
  destruct ((end_date - start_date) / day <=? 0)%Z eqn:Hdays.
  - simpl. split; [ exists 0%Z; lia | ]. split; [ lia | reflexivity ].
  - apply Z.leb_gt in Hdays.
    pose proof (Hrange _ g Hdays) as Hk.
    destruct (randrange ((end_date - start_date) / day)%Z g) as [k g'].
    simpl in Hk |- *.
    pose proof (Z.mul_div_le (end_date - start_date) day Hday).
    split; [ exists k; lia | ]. split; [ nia | ].
    intros Hclose. exfalso.
    assert ((end_date - start_date) / day <= 0)%Z; [ | lia ].
    destruct (Z_lt_le_dec (end_date - start_date) 0) as [Hneg | Hpos].
    + apply Z.lt_le_incl, Z.div_lt_upper_bound; lia.
    + rewrite Z.div_small; lia.
Qed.

(** X19: [random_amount] returns a multiple of 100 between 100 and 500000;
    it stays at or below 50000 whenever the larger-purchase draw fails. *)
Theorem random_amount_bounds (g : Rng) :
  randint_in_range randint ->
  let amount := fst (random_amount randint random_below g) in
  (100 <= amount <= 500000)%Z
  /\ (amount mod 100 = 0)%Z
  /\ (fst (random_below 10 (snd (randint 1 500 g))) = false ->
      (amount <= 50000)%Z).
Proof.
  clear randrange.
  intros Hrange amount. subst amount. unfold random_amount.
  assert (Hbase : (1 <= fst (randint 1 500 g) <= 500)%Z)
    by (apply Hrange; lia).
  destruct (randint 1 500 g) as [base g1]. simpl in Hbase |- *.
  destruct (random_below 10 g1) as [[ | ] g2]; simpl.
  - assert (Hfactor : (5 <= fst (randint 5 10 g2) <= 10)%Z)
      by (apply Hrange; lia).
    destruct (randint 5 10 g2) as [factor g3]. simpl in Hfactor |- *.
    split; [ nia | ]. split; [ apply Z.mod_mul; lia | discriminate ].
  - split; [ lia | ]. split; [ apply Z.mod_mul; lia | lia ].
Qed.

(** X20: the status of a generated user is one of three: cancelled (and
    then neither active nor dormant), dormant (with the active flag still
    1), or active.  The last activity is never before the registration; a
    dormant user's last activity is not after the later of the registration
    and 90 days before the end date, and an active user's is within the
    last 30 days before the end date or later. *)
Theorem user_status_is_consistent (END_DATE reg_date : Z) (g : Rng) :
  randrange_in_range randrange ->
  let s := fst (user_status randrange random_below END_DATE reg_date g) in
  ((is_active s, is_dormant s, is_cancelled s) = (0, 0, 1)%Z
   \/ (is_active s, is_dormant s, is_cancelled s) = (1, 1, 0)%Z
   \/ (is_active s, is_dormant s, is_cancelled s) = (1, 0, 0)%Z)
  /\ (reg_date <= last_activity s)%Z
  /\ (is_dormant s = 1%Z ->
      (last_activity s <= Z.max reg_date (END_DATE - 90 * day))%Z)
  /\ (is_active s = 1%Z -> is_dormant s = 0%Z ->
      (END_DATE - 30 * day <= last_activity s)%Z).
Proof.
  clear randint.
  intros Hrange s. subst s. unfold user_status.
  destruct (random_below 5 g) as [[ | ] g1].
  - pose proof (random_date_between reg_date END_DATE g1 Hrange) as H.
    destruct (random_date randrange reg_date END_DATE g1) as [last g2].
    simpl in H |- *. repeat split; try tauto; try lia; discriminate.
  - destruct (random_below 15 g1) as [[ | ] g2].
    + pose proof (random_date_between reg_date (END_DATE - 90 * day) g2
                    Hrange) as H.
      destruct (random_date randrange reg_date (END_DATE - 90 * day)%Z g2)
        as [last g3].
      simpl in H |- *. repeat split; try tauto; try lia; discriminate.
    + pose proof (random_date_between
                    (Z.max reg_date (END_DATE - 30 * day)) END_DATE g2
                    Hrange) as H.
      destruct (random_date randrange
                  (Z.max reg_date (END_DATE - 30 * day)%Z) END_DATE g2)
        as [last g3].
      simpl in H |- *. repeat split; try tauto; try lia; discriminate.
Qed.

End ScriptProperties.

(** ** Batches *)

Section BatchProperties.

Import DemoData.

Context {A : Type}.

Lemma firstn_plus (a b : nat) (l : list A) :
  firstn (a + b) l = (firstn a l ++ firstn b (skipn a l))%list.
Proof.
  revert l. induction a as [ | a IH]; intros l; [ reflexivity | ].
  destruct l as [ | x l]; simpl.
  - rewrite firstn_nil. reflexivity.
  - rewrite IH. reflexivity.
Qed.

Lemma concat_slices (l : list A) (step count start : nat) :
  concat (map (fun i => slice l i (i + step)) (range_from start step count))
  = firstn (count * step) (skipn start l).
Proof.
  revert start. induction count as [ | count IH]; intros start;
    [ reflexivity | ].
  simpl. rewrite IH. unfold slice.
  replace (start + step - start) with step by lia.
  rewrite firstn_plus, skipn_skipn. f_equal. f_equal. f_equal. lia.
Qed.

Lemma batch_count_covers (n step : nat) :
  0 < step -> n <= (n + step - 1) / step * step.
Proof.
  intros Hstep.
  pose proof (Nat.div_mod_eq (n + step - 1) step) as Hdiv.
  pose proof (Nat.mod_upper_bound (n + step - 1) step) as Hmod.
  nia.
Qed.

Lemma slices_sized (l : list A) (step count start : nat) :
  0 < step ->
  start + (count - 1) * step < List.length l \/ count = 0 ->
  Forall (fun b => 1 <= List.length b <= step)
    (map (fun i => slice l i (i + step)) (range_from start step count)).
Proof.
  intros Hstep. revert start.
  induction count as [ | count IH]; intros start Hlast; [ constructor | ].
  simpl. constructor.
  - unfold slice. rewrite length_firstn, length_skipn. nia.
  - apply IH. destruct count as [ | count]; [ right; reflexivity | left ].
    destruct Hlast as [Hlast | Hlast]; [ | discriminate ].
    simpl in Hlast |- *. nia.
Qed.

(** X21: the batches of an insertion loop, taken in order, are the whole
    list: nothing is left out and nothing is inserted twice.  No batch is
    empty and none has more than [batch_size] rows. *)
Theorem batches_cover_the_list (batch_size : nat) (l : list A) :
  0 < batch_size ->
  concat (batches batch_size l) = l
  /\ Forall (fun b => 1 <= List.length b <= batch_size) (batches batch_size l).
Proof.
  intros Hsize. unfold batches, range_step. split.
  - rewrite concat_slices. simpl. apply firstn_all2.
    apply batch_count_covers, Hsize.
  - apply slices_sized; [ exact Hsize | ].
    remember ((List.length l + batch_size - 1) / batch_size) as count.
    destruct count as [ | count]; [ right; reflexivity | left ].
    pose proof (Nat.div_mod_eq (List.length l + batch_size - 1) batch_size)
      as Hdiv.
    pose proof (Nat.mod_upper_bound (List.length l + batch_size - 1)
                  batch_size) as Hmod.
    rewrite <- Heqcount in Hdiv. simpl. nia.
Qed.

End BatchProperties.

(** ** E-mail addresses *)

Section EmailProperties.

Import DemoData.

Lemma append_assoc (a b c : string) : (a ++ b) ++ c = a ++ b ++ c.
Proof.
  induction a as [ | x a IH]; simpl; [ reflexivity | rewrite IH; reflexivity ].
Qed.

Lemma all_chars_append (p : ascii -> bool) (a b : string) :
  all_chars p (a ++ b) = all_chars p a && all_chars p b.
Proof.
  induction a as [ | x a IH]; simpl; [ reflexivity | ].
  rewrite IH. apply andb_assoc.
Qed.

(** A string splits in one way only at its first character with [p]. *)
Lemma first_split_unique (p : ascii -> bool) (a a' : string) (c c' : ascii)
  (r r' : string) :
  all_chars (fun x => negb (p x)) a = true ->
  all_chars (fun x => negb (p x)) a' = true ->
  p c = true -> p c' = true ->
  a ++ String c r = a' ++ String c' r' ->
  a = a' /\ String c r = String c' r'.
Proof.
  revert a'. induction a as [ | x a IH]; intros [ | x' a'] Ha Ha' Hc Hc' H;
    simpl in *.
  - split; [ reflexivity | exact H ].
  - inversion H; subst x'. rewrite Hc in Ha'. discriminate.
  - inversion H; subst x. rewrite Hc' in Ha. discriminate.
  - inversion H; subst x'.
    apply andb_prop in Ha. apply andb_prop in Ha'.
    destruct (IH a' (proj2 Ha) (proj2 Ha') Hc Hc' H2) as [-> Hr].
    split; [ reflexivity | exact Hr ].
Qed.

Lemma digits_of_uint (d : uint) :
  all_chars is_digit (NilEmpty.string_of_uint d) = true.
Proof. induction d; simpl; auto. Qed.

Lemma str_of_nat_injective (i j : nat) :
  str_of_nat i = str_of_nat j -> i = j.
Proof.
  unfold str_of_nat. intros H.
  apply (f_equal NilEmpty.uint_of_string) in H.
  rewrite !NilEmpty.usu in H. inversion H as [Hu].
  apply (f_equal Nat.of_uint) in Hu.
  rewrite !Unsigned.of_to in Hu. exact Hu.
Qed.

Lemma str_of_nat_nonempty (i : nat) :
  exists c rest, str_of_nat i = String c rest.
Proof.
  destruct (str_of_nat i) as [ | c rest] eqn:E; [ | eauto ].
  exfalso. unfold str_of_nat in E.
  apply (f_equal NilEmpty.uint_of_string) in E.
  rewrite NilEmpty.usu in E. simpl in E. inversion E as [Hu].
  apply (f_equal Nat.of_uint) in Hu. rewrite Unsigned.of_to in Hu.
  simpl in Hu. subst i. discriminate.
Qed.

Lemma digits_have_no_at (s : string) :
  all_chars is_digit s = true ->
  all_chars (fun x => negb (Ascii.eqb x "@")) s = true.
Proof.
  induction s as [ | c s IH]; simpl; [ reflexivity | ].
  intros H. apply andb_prop in H. destruct H as [Hc Hs].
  rewrite (IH Hs), andb_true_r.
  destruct (Ascii.eqb c "@") eqn:E; [ | reflexivity ].
  apply Ascii.eqb_eq in E. subst c. discriminate.
Qed.

(** The address of user [i] with lower-cased names [l] and [f]. *)
Lemma address_determines_number (l f d l' f' d' : string) (i j : nat) :
  all_chars (fun c => negb (is_digit c)) l = true ->
  all_chars (fun c => negb (is_digit c)) f = true ->
  all_chars (fun c => negb (is_digit c)) l' = true ->
  all_chars (fun c => negb (is_digit c)) f' = true ->
  l ++ "." ++ f ++ str_of_nat i ++ "@" ++ d
  = l' ++ "." ++ f' ++ str_of_nat j ++ "@" ++ d' ->
  i = j.
Proof.
  intros Hl Hf Hl' Hf' H.
  pose proof (digits_of_uint (Nat.to_uint i)) as Hi.
  pose proof (digits_of_uint (Nat.to_uint j)) as Hj.
  fold (str_of_nat i) in Hi. fold (str_of_nat j) in Hj.
  destruct (str_of_nat_nonempty i) as (ci & ri & Ei).
  destruct (str_of_nat_nonempty j) as (cj & rj & Ej).
  assert (Hsplit : (l ++ "." ++ f) ++ String ci (ri ++ "@" ++ d)
                   = (l' ++ "." ++ f') ++ String cj (rj ++ "@" ++ d')).
  { rewrite Ei, Ej in H. rewrite !append_assoc. exact H. }
  apply first_split_unique with (p := is_digit) in Hsplit.
  - destruct Hsplit as [_ Hrest].
    apply str_of_nat_injective. rewrite Ei, Ej.
    change (String ci (ri ++ "@" ++ d)) with (String ci ri ++ String "@" d)
      in Hrest.
    change (String cj (rj ++ "@" ++ d')) with (String cj rj ++ String "@" d')
      in Hrest.
    apply first_split_unique
      with (p := fun x => Ascii.eqb x "@") in Hrest.
    + exact (proj1 Hrest).
    + apply digits_have_no_at. rewrite <- Ei. exact Hi.
    + apply digits_have_no_at. rewrite <- Ej. exact Hj.
    + reflexivity.
    + reflexivity.
  - rewrite !all_chars_append, Hl, Hf. reflexivity.
  - rewrite !all_chars_append, Hl', Hf'. reflexivity.
  - rewrite Ei in Hi. simpl in Hi. apply andb_prop in Hi. exact (proj1 Hi).
  - rewrite Ej in Hj. simpl in Hj. apply andb_prop in Hj. exact (proj1 Hj).
Qed.

Context {Rng : Type}.
Variable choice : list string -> Rng -> string * Rng.
Variable lower : string -> string.

(** X22: two users with different numbers get different e-mail addresses,
    whatever names and domains are drawn for them: the number written after
    the names can be read back from the address. *)
Theorem generated_emails_are_distinct (i j : nat) (g g' : Rng) :
  choice_in_list choice ->
  names_lower_without_digits lower ->
  i <> j ->
  snd (fst (user_identity choice lower i g))
  <> snd (fst (user_identity choice lower j g')).
Proof.
  intros Hchoice Hnames Hij. unfold user_identity.
  assert (Hfirst : forall s, In (fst (choice first_names s)) first_names)
    by (intros s; apply Hchoice; discriminate).
  assert (Hlast : forall s, In (fst (choice last_names s)) last_names)
    by (intros s; apply Hchoice; discriminate).
  pose proof (Hfirst g) as Hf. pose proof (Hfirst g') as Hf'.
  destruct (choice first_names g) as [f g1].
  destruct (choice first_names g') as [f' g1'].
  pose proof (Hlast g1) as Hl. pose proof (Hlast g1') as Hl'.
  destruct (choice last_names g1) as [l g2].
  destruct (choice last_names g1') as [l' g2'].
  destruct (choice email_domains g2) as [d g3].
  destruct (choice email_domains g2') as [d' g3'].
  cbn [fst snd] in *. intros H. apply Hij.
  apply (address_determines_number (lower l) (lower f) d
           (lower l') (lower f') d'); try exact H;
    apply Hnames, in_or_app; auto.
Qed.

End EmailProperties.

(** ** The further properties on concrete inputs *)

Section FurtherRuns.

Import Demo.

(** X2 on a trend question over the two-column table. *)
Lemma chart_kind_follows_keyword_priority_run :
  _generate_visualization services "割合の推移" (VFrame by_category)
  = Returned (Some "line over index")
  /\ exists df fig,
       frame_of services (VFrame by_category) = Some df
       /\ fig_to_base64 services df fig = Returned "line over index"
       /\ kind_of fig = Line.
Proof.
  split; [ reflexivity | ].
  exact (chart_kind_follows_keyword_priority services "割合の推移"
           (VFrame by_category) "line over index" eq_refl).
Defined.


(** X4 on a row of two cells, which does not fit the single column. *)
Lemma frame_construction_failure_gives_no_chart_run :
  pd_DataFrame services [OTuple [CNumber 1; CNumber 2]] (Some ["Value"])
  = Raised (Exception "Shape of passed values does not match")
  /\ _generate_visualization services "割合の推移"
       (VList [OTuple [CNumber 1; CNumber 2]]) = Returned None.
Proof.
  split; [ reflexivity | ].
  exact (frame_construction_failure_gives_no_chart services "割合の推移"
           (OTuple [CNumber 1; CNumber 2]) [] _ eq_refl).
Defined.

(** X8 on a count that succeeds. *)
Lemma process_question_reply_cases_run :
  exists st1 v st2,
    generate_query services "SELECT COUNT(*) FROM purchases" healthy
    = (Returned "SELECT COUNT(*) FROM purchases", st1)
    /\ execute_query services "SELECT COUNT(*) FROM purchases" st1
       = (Returned v, st2)
    /\ ((is_error_result v = true
         /\ {| answer := "結果: [...]";
               sql_query := "SELECT COUNT(*) FROM purchases";
               visualization := None |}
            = error_reply services "SELECT COUNT(*) FROM purchases" v
         /\ mkSt (world healthy)
              [CallChainInvoke "SELECT COUNT(*) FROM purchases";
               CallDbRun "SELECT COUNT(*) FROM purchases";
               CallResponseChainRun "SELECT COUNT(*) FROM purchases"
                 "SELECT COUNT(*) FROM purchases" "[...]"] = st2)
        \/ (is_error_result v = false
            /\ _generate_visualization services
                 "SELECT COUNT(*) FROM purchases" v = Returned None
            /\ response_chain_run services "SELECT COUNT(*) FROM purchases"
                 "SELECT COUNT(*) FROM purchases" (str_of services v)
                 (world st2)
               = (Returned "結果: [...]", world healthy)
            /\ [CallChainInvoke "SELECT COUNT(*) FROM purchases";
                CallDbRun "SELECT COUNT(*) FROM purchases";
                CallResponseChainRun "SELECT COUNT(*) FROM purchases"
                  "SELECT COUNT(*) FROM purchases" "[...]"]
               = (calls st2
                  ++ [CallResponseChainRun "SELECT COUNT(*) FROM purchases"
                        "SELECT COUNT(*) FROM purchases"
                        (str_of services v)])%list)).
Proof.
  exact (process_question_reply_cases services
           "SELECT COUNT(*) FROM purchases" healthy
           (mkSt (world healthy)
              [CallChainInvoke "SELECT COUNT(*) FROM purchases";
               CallDbRun "SELECT COUNT(*) FROM purchases";
               CallResponseChainRun "SELECT COUNT(*) FROM purchases"
                 "SELECT COUNT(*) FROM purchases" "[...]"])
           {| answer := "結果: [...]";
              sql_query := "SELECT COUNT(*) FROM purchases";
              visualization := None |} eq_refl).
Defined.

(** X17 on a statement the store rejects. *)
Lemma on_message_reports_execution_failure_run :
  App.on_message services "drop it" (App.mkSession healthy [])
  = (Returned tt,
     App.mkSession
       (mkSt (world healthy) [CallChainInvoke "drop it"; CallDbRun "drop it"])
       [App.thinking;
        {| App.content :=
             (apology ++ "Error executing query: near syntax error")
             ++ App.sql_block "drop it";
           App.elements := [] |}]).
Proof.
  exact (on_message_reports_execution_failure services "drop it"
           (App.mkSession healthy [])
           (mkSt (world healthy) [CallChainInvoke "drop it"]) "drop it"
           (Exception "near syntax error") (world healthy) eq_refl eq_refl).
Defined.

End FurtherRuns.

Section ConnectionRuns.

Import DbConnection.

(** X10 on a type that is not supported. *)
Lemma connect_rejects_unsupported_type_run :
  supported Demo.lower (db_type oracle_connection) = false
  /\ connect url_engine Demo.lower oracle_connection
     = (Raised (Exception "Unsupported database type: Oracle"),
        oracle_connection).
Proof.
  split; [ reflexivity | ].
  exact (connect_rejects_unsupported_type url_engine Demo.lower
           oracle_connection eq_refl).
Defined.

(** X11 on a SQLite file, the type spelled with capitals. *)
Lemma connect_installs_engine_and_session_run :
  connect url_engine Demo.lower (sqlite_at "db/test.db")
  = (Returned "sqlite:///db/test.db",
     connected (sqlite_at "db/test.db") "sqlite:///db/test.db")
  /\ engine (connected (sqlite_at "db/test.db") "sqlite:///db/test.db")
     = Some "sqlite:///db/test.db".
Proof.
  split; [ reflexivity | ].
  exact (proj1 (proj2 (proj2
    (connect_installs_engine_and_session url_engine Demo.lower
       (sqlite_at "db/test.db") _ "sqlite:///db/test.db" eq_refl)))).
Defined.

(** X12 on a MySQL connection without any setting: the URL has the text
    [None] as its port and the engine factory refuses it. *)
Lemma connect_failure_changes_nothing_run :
  fst (connect url_engine Demo.lower
         (init empty_environ "mysql" None None None None None None))
  = Raised (Exception "invalid literal for int() with base 10: 'None'")
  /\ snd (connect url_engine Demo.lower
            (init empty_environ "mysql" None None None None None None))
     = init empty_environ "mysql" None None None None None None.
Proof.
  split; [ reflexivity | ].
  exact (connect_failure_changes_nothing url_engine Demo.lower
           (init empty_environ "mysql" None None None None None None)
           (snd (connect url_engine Demo.lower
                   (init empty_environ "mysql" None None None None None None)))
           (Exception "invalid literal for int() with base 10: 'None'")
           eq_refl).
Defined.

(** X13 on a SQLite file: one engine for the first session, none for
    the second. *)
Lemma get_session_connects_once_run :
  get_session_recorded url_engine Demo.lower (sqlite_at "db/test.db") []
  = ((Returned (session_of "sqlite:///db/test.db"),
      connected (sqlite_at "db/test.db") "sqlite:///db/test.db"),
     ["sqlite:///db/test.db"])
  /\ get_session_recorded url_engine Demo.lower
       (connected (sqlite_at "db/test.db") "sqlite:///db/test.db")
       ["sqlite:///db/test.db"]
     = ((Returned (session_of "sqlite:///db/test.db"),
         connected (sqlite_at "db/test.db") "sqlite:///db/test.db"),
        ["sqlite:///db/test.db"]).
Proof.
  split; [ reflexivity | ].
  exact (proj1 (proj2 (proj2
    (get_session_connects_once url_engine Demo.lower
       (sqlite_at "db/test.db") _ _ [] _ eq_refl)))).
Defined.

(** X14 on a type that is not supported. *)
Lemma get_session_fails_as_connect_run :
  get_session url_engine Demo.lower oracle_connection
  = (Raised (Exception "Unsupported database type: Oracle"),
     oracle_connection)
  /\ Session oracle_connection = None.
Proof.
  split; [ reflexivity | ].
  exact (proj1 (get_session_fails_as_connect url_engine Demo.lower
                  oracle_connection _ _ eq_refl)).
Defined.

(** X15 with an empty environment. *)
Lemma default_connection_is_the_sqlite_file_run :
  fst (generator_engine url_engine Demo.lower empty_environ None)
  = Returned "sqlite:///db/data/credit_card_users.db".
Proof.
  exact (default_connection_is_the_sqlite_file url_engine Demo.lower
           empty_environ eq_refl eq_refl).
Defined.

End ConnectionRuns.

Section ScriptRuns.

Import DemoData.

Lemma tape_randrange_in_range : randrange_in_range tape_randrange.
Proof.
  intros n [ | x g] Hn; simpl; [ lia | apply Z.mod_pos_bound, Hn ].
Defined.

Lemma tape_randint_in_range : randint_in_range tape_randint.
Proof.
  intros a b [ | x g] Hab; simpl; [ lia | ].
  pose proof (Z.mod_pos_bound x (b - a + 1)). lia.
Defined.

Lemma tape_choice_in_list : choice_in_list tape_choice.
Proof.
  intros l [ | x g] Hl; simpl.
  - destruct l; [ contradiction | left; reflexivity ].
  - apply nth_In.
    assert (0 < Z.of_nat (List.length l))%Z
      by (destruct l; [ contradiction | simpl; lia ]).
    pose proof (Z.mod_pos_bound x (Z.of_nat (List.length l))). lia.
Defined.

Lemma names_stay_without_digits : names_lower_without_digits Demo.lower.
Proof.
  intros n H. simpl in H.
  repeat (destruct H as [<- | H]; [ vm_compute; reflexivity | ]).
  contradiction.
Defined.

(** X18: seven days into a span of ten. *)
Lemma random_date_stays_in_range_run :
  fst (random_date tape_randrange 0 (10 * day) [7%Z]) = (7 * day)%Z
  /\ (0 <= 10 * day -> fst (random_date tape_randrange 0 (10 * day) [7%Z])
                       <= 10 * day)%Z.
Proof.
  split; [ reflexivity | ].
  exact (proj1 (proj2 (random_date_stays_in_range tape_randrange 0
                         (10 * day) [7%Z] tape_randrange_in_range))).
Defined.

(** X19: the draws 500, larger, 10 give the largest amount. *)
Lemma random_amount_bounds_run :
  fst (random_amount tape_randint tape_random_below [499; 5; 5]%Z)
  = 500000%Z
  /\ (100 <= fst (random_amount tape_randint tape_random_below
                    [499; 5; 5]%Z) <= 500000)%Z.
Proof.
  split; [ reflexivity | ].
  exact (proj1 (random_amount_bounds tape_randint tape_random_below
                  [499; 5; 5]%Z tape_randint_in_range)).
Defined.

(** X20: a dormant user registered 200 days before the end date. *)
Lemma user_status_is_consistent_run :
  is_dormant (fst (user_status tape_randrange tape_random_below
                     (365 * day) (165 * day) [50; 3; 40]%Z)) = 1%Z
  /\ (165 * day
      <= last_activity (fst (user_status tape_randrange tape_random_below
                               (365 * day) (165 * day) [50; 3; 40]%Z)))%Z.
Proof.
  split; [ reflexivity | ].
  exact (proj1 (proj2 (user_status_is_consistent tape_randrange
                         tape_random_below (365 * day) (165 * day)
                         [50; 3; 40]%Z tape_randrange_in_range))).
Defined.

(** X21: five rows in batches of two. *)
Lemma batches_cover_the_list_run :
  batches 2 [1; 2; 3; 4; 5] = [[1; 2]; [3; 4]; [5]]
  /\ concat (batches 2 [1; 2; 3; 4; 5]) = [1; 2; 3; 4; 5].
Proof.
  split; [ reflexivity | ].
  refine (proj1 (batches_cover_the_list 2 [1; 2; 3; 4; 5] _)). lia.
Defined.

(** X22: users 1 and 2 drawing the same names and the same domain. *)
Lemma generated_emails_are_distinct_run :
  snd (fst (user_identity tape_choice Demo.lower 1 [0; 0; 0]%Z))
  = "佐藤.太郎1@gmail.com"
  /\ snd (fst (user_identity tape_choice Demo.lower 1 [0; 0; 0]%Z))
     <> snd (fst (user_identity tape_choice Demo.lower 2 [0; 0; 0]%Z)).
Proof.
  split; [ reflexivity | ].
  refine (generated_emails_are_distinct tape_choice Demo.lower 1 2 _ _
            tape_choice_in_list names_stay_without_digits _).
  discriminate.
Defined.

End ScriptRuns.
